(** * nodejs-demo-app: the request-instrumentation middleware of [app.js]

    [app.js] composes three libraries around two routes: a prom-client
    registry (a counter and a histogram), a winston logger and a Jaeger
    tracer.  This development embeds the program as state-passing code in
    a small state-and-exception monad.  The libraries are not part of the
    repository; each is represented by its interface as the program uses
    it, acting on a recording state:

    - the counter is the map from label sets to values that [inc] updates;
    - the histogram keeps the observed durations per label set;
    - the tracer allocates span objects that record their operation name,
      parent, tags and the number of [finish()] calls received;
    - the logger appends (level, message) entries;
    - every call to a collaborator is also appended to a call trace, so
      that order and multiplicity of calls can be stated.

    The framework (express on Node's http) is represented by what it
    does with a request of this program: the [app.use] middleware first,
    then the two [GET] routes (which also answer [HEAD]), then the end of
    the router, which answers [OPTIONS] on the path of a route with the
    list of its methods and anything else with the default 404 responder;
    a synchronous throw inside a layer is answered by the default 500
    responder.  [res.send] answers a conditional request that is fresh
    with 304 and no body; the freshness test itself is a parameter.  The
    events the host emits on the response object (['finish'], ['close'])
    are an input of the model; the host's own listener of ['finish'],
    attached before the program sees the response, detaches the socket
    and fails on a response whose socket is already detached.

    The logger handed to the tracer in [initTracer] is the adapter of
    lines 62-70, [options_logger_info] and [options_logger_error].  What
    the tracer writes through it on its own account (a line per reported
    span, the errors of its sender) is an input, [tracer_writes], and not
    part of [span_finish]; [log] holds the entries written on the path of
    a request by the handlers of the program, and the statements about the
    log below are such that they stay true with lines of the tracer in
    between.

    Outside the model: requests running concurrently; the rounding of
    durations to floating-point seconds (the clock counts whole
    nanoseconds). *)

From Stdlib Require Import Ascii String.
From stdpp Require Import gmap strings list fin_maps pretty.


(** ** Data model *)

Module Http.

Abbreviation Headers := (gmap string string).

(** [req.method], [req.path], [req.headers]. *)
Record Request := {
  method : string;
  path : string;
  headers : Headers
}.

(** What is written on the wire as the response body.  Pages produced
    by the framework's default responder are identified by their status
    only. *)
Inductive Body :=
| NoBody
| Text (s : string)
| FrameworkPage (code : nat).

(** The events the host emits on a response object. *)
Inductive ResEvent := Finish | Close.

End Http.
Export Http.

Module Tracing.

(** A propagated trace context (trace id, span id, sampling flags). *)
Record SpanContext := {
  traceId : N;
  spanId : N;
  flags : N
}.

Inductive TagValue :=
| TagStr (s : string)
| TagNum (n : nat).

(** A span object of the tracer: [tracer.startSpan(name, {childOf, tags})]
    creates it, [setTag] pushes a tag, [finish()] is counted. *)
Record Span := {
  operationName : string;
  childOf : option SpanContext;
  tags : list (string * TagValue);
  finished : nat
}.

(** Constants of the opentracing package used by [app.js]. *)
Definition FORMAT_HTTP_HEADERS : string := "http_headers".
Definition SPAN_KIND : string := "span.kind".
Definition SPAN_KIND_RPC_SERVER : string := "server".
Definition HTTP_STATUS_CODE : string := "http.status_code".

End Tracing.
Export Tracing.

Module Metrics.

(** [labelNames: ['method', 'route', 'status_code']] *)
Record CounterLabels := {
  cl_method : string;
  cl_route : string;
  cl_status_code : nat
}.

(** [labelNames: ['method', 'route', 'code']] *)
Record HistLabels := {
  hl_method : string;
  hl_route : string;
  hl_code : nat
}.

#[global] Instance CounterLabels_eq_dec : EqDecision CounterLabels :=
  ltac:(solve_decision).

#[global] Instance HistLabels_eq_dec : EqDecision HistLabels :=
  ltac:(solve_decision).

#[global] Instance CounterLabels_countable : Countable CounterLabels :=
  inj_countable'
    (fun l => (cl_method l, cl_route l, cl_status_code l))
    (fun t => {| cl_method := t.1.1; cl_route := t.1.2; cl_status_code := t.2 |})
    (fun l => match l with Build_CounterLabels _ _ _ => eq_refl end).

#[global] Instance HistLabels_countable : Countable HistLabels :=
  inj_countable'
    (fun l => (hl_method l, hl_route l, hl_code l))
    (fun t => {| hl_method := t.1.1; hl_route := t.1.2; hl_code := t.2 |})
    (fun l => match l with Build_HistLabels _ _ _ => eq_refl end).

End Metrics.
Export Metrics.

Inductive Level := Info | Error.

(** The arrow function passed to [res.on('finish', ...)], as the data it
    closes over: the request, the span, and the [end] function returned
    by [startTimer()], which itself closes over the start time. *)
Record FinishListener := {
  cap_req : Request;
  cap_span : nat;
  cap_end : N
}.

(** The response object [res]. *)
Record Response := {
  statusCode : nat;
  res_headers : gmap string string;
  body : Body;
  ended : bool;
  on_finish_listeners : list FinishListener
}.

(** Calls made to the collaborators, in program order. *)
Inductive Call :=
| CExtract (format : string) (carrier : Headers)
| CStartSpan (name : string) (parent : option SpanContext) (tgs : list (string * TagValue))
| CStartTimer
| CResOn (event : string)
| CNext
| CCounterInc (l : CounterLabels)
| CTimerEnd (l : HistLabels)
| CSetTag (span : nat) (key : string) (v : TagValue)
| CSpanFinish (span : nat)
| CLoggerInfo (msg : string)
| CLoggerError (msg : string)
| CResSet (field value : string)
| CResSend (b : string)
| CRegisterMetrics
| CResEnd (b : string).

(** Collaborator operations that may throw; the last one is the
    assertion in the listener the host itself attaches to ['finish']. *)
Inductive Op :=
| OpExtract
| OpStartSpan
| OpStartTimer
| OpCounterInc
| OpTimerEnd
| OpSetTag
| OpSpanFinish
| OpLoggerInfo
| OpLoggerError
| OpDetachSocket.

(** The process state the program acts on.  [attached] says that the
    socket of the connection is attached to the response being served:
    the host attaches it when the request arrives, and its own listener
    detaches it at the first ['finish']. *)
Record World := {
  counter : gmap CounterLabels nat;
  histogram : gmap HistLabels (list N);
  default_metrics : list string;
  spans : list Span;
  log : list (Level * string);
  clock : N;
  calls : list Call;
  res : Response;
  uncaught : bool;
  attached : bool
}.

Definition fresh_response : Response :=
  {| statusCode := 200; res_headers := ∅; body := NoBody; ended := false;
     on_finish_listeners := [] |}.

(** The state right after the module body of [app.js] has run: both
    metrics registered and empty, no span started, nothing logged.  [dm]
    is the text of the default process metrics. *)
Definition initial_world (dm : list string) : World :=
  {| counter := ∅; histogram := ∅; default_metrics := dm; spans := [];
     log := []; clock := 0; calls := []; res := fresh_response;
     uncaught := false; attached := false |}.

(** Field updates. *)
Definition set_counter (f : gmap CounterLabels nat -> gmap CounterLabels nat) (w : World) : World :=
  {| counter := f (counter w); histogram := histogram w;
     default_metrics := default_metrics w; spans := spans w; log := log w;
     clock := clock w; calls := calls w; res := res w; uncaught := uncaught w;
     attached := attached w |}.

Definition set_histogram (f : gmap HistLabels (list N) -> gmap HistLabels (list N)) (w : World) : World :=
  {| counter := counter w; histogram := f (histogram w);
     default_metrics := default_metrics w; spans := spans w; log := log w;
     clock := clock w; calls := calls w; res := res w; uncaught := uncaught w;
     attached := attached w |}.

Definition set_spans (f : list Span -> list Span) (w : World) : World :=
  {| counter := counter w; histogram := histogram w;
     default_metrics := default_metrics w; spans := f (spans w); log := log w;
     clock := clock w; calls := calls w; res := res w; uncaught := uncaught w;
     attached := attached w |}.

Definition set_log (f : list (Level * string) -> list (Level * string)) (w : World) : World :=
  {| counter := counter w; histogram := histogram w;
     default_metrics := default_metrics w; spans := spans w; log := f (log w);
     clock := clock w; calls := calls w; res := res w; uncaught := uncaught w;
     attached := attached w |}.

Definition set_clock (f : N -> N) (w : World) : World :=
  {| counter := counter w; histogram := histogram w;
     default_metrics := default_metrics w; spans := spans w; log := log w;
     clock := f (clock w); calls := calls w; res := res w; uncaught := uncaught w;
     attached := attached w |}.

Definition record_call (c : Call) (w : World) : World :=
  {| counter := counter w; histogram := histogram w;
     default_metrics := default_metrics w; spans := spans w; log := log w;
     clock := clock w; calls := calls w ++ [c]; res := res w; uncaught := uncaught w;
     attached := attached w |}.

Definition set_res (f : Response -> Response) (w : World) : World :=
  {| counter := counter w; histogram := histogram w;
     default_metrics := default_metrics w; spans := spans w; log := log w;
     clock := clock w; calls := calls w; res := f (res w); uncaught := uncaught w;
     attached := attached w |}.

Definition set_uncaught (b : bool) (w : World) : World :=
  {| counter := counter w; histogram := histogram w;
     default_metrics := default_metrics w; spans := spans w; log := log w;
     clock := clock w; calls := calls w; res := res w; uncaught := b;
     attached := attached w |}.

Definition set_attached (b : bool) (w : World) : World :=
  {| counter := counter w; histogram := histogram w;
     default_metrics := default_metrics w; spans := spans w; log := log w;
     clock := clock w; calls := calls w; res := res w; uncaught := uncaught w;
     attached := b |}.

(** ** The monad of the program: state, and JavaScript exceptions *)

Inductive Result (A : Type) :=
| Ok (a : A)
| Throw (op : Op).
Arguments Ok {A} a.
Arguments Throw {A} op.

Definition M (A : Type) : Type := World -> Result A * World.

Definition ret {A} (a : A) : M A := fun w => (Ok a, w).

Definition bind {A B} (m : M A) (k : A -> M B) : M B :=
  fun w =>
    match m w with
    | (Ok a, w') => k a w'
    | (Throw op, w') => (Throw op, w')
    end.

(** [try { m } catch (e) { h }] *)
Definition catch {A} (m : M A) (h : Op -> M A) : M A :=
  fun w =>
    match m w with
    | (Ok a, w') => (Ok a, w')
    | (Throw op, w') => h op w'
    end.

Definition modify (f : World -> World) : M unit := fun w => (Ok tt, f w).

Definition gets {A} (f : World -> A) : M A := fun w => (Ok (f w), w).

Declare Scope m_scope.
Delimit Scope m_scope with M.
Notation "x <- m ;; k" := (bind m (fun x => k))
  (at level 100, m at next level, right associativity) : m_scope.
Notation "m ;; k" := (bind m (fun _ => k))
  (at level 100, right associativity) : m_scope.
Local Open Scope m_scope.

(** ** The collaborators *)

Definition Faults := Op -> bool.

(** All collaborators healthy. *)
Definition no_faults : Faults := fun _ => false.

(** The tracer and the metrics never throw; the logger throws iff [b]. *)
Definition logger_fault (b : bool) : Faults :=
  fun op => match op with OpLoggerInfo => b | _ => false end.

Section Program.

(** Which collaborator calls throw. *)
Variable faults : Faults.

(** [tracer.extract(FORMAT_HTTP_HEADERS, carrier)]: the parent context
    carried by the headers, [None] when they carry no valid one. *)
Variable extract : Headers -> option SpanContext.

(** The freshness test of the framework ([req.fresh], through the
    package it relies on): whether the conditional headers of the request
    validate the entity tag the framework derives from the body that is
    about to be sent. *)
Variable fresh : Headers -> string -> bool.

(** How the registry prints the sum of a series of observed durations. *)
Variable fmt_sum : list N -> string.

(** A call to a collaborator: recorded, then it throws or takes effect. *)
Definition call {A} (op : Op) (c : Call) (effect : M A) : M A :=
  modify (record_call c) ;;
  if faults op then (fun w => (Throw op, w)) else effect.

(** *** Tracer *)

Definition tracer_extract (format : string) (carrier : Headers) : M (option SpanContext) :=
  call OpExtract (CExtract format carrier) (ret (extract carrier)).

Definition tracer_startSpan (name : string) (parent : option SpanContext)
    (tgs : list (string * TagValue)) : M nat :=
  call OpStartSpan (CStartSpan name parent tgs)
    (id <- gets (fun w => length (spans w)) ;;
     modify (set_spans (fun ss => ss ++
       [{| operationName := name; childOf := parent; tags := tgs; finished := 0 |}])) ;;
     ret id).

(** The effect of [span.setTag(key, v)] and of [span.finish()] on the
    span object. *)
Definition push_tag (key : string) (v : TagValue) (s : Span) : Span :=
  {| operationName := operationName s; childOf := childOf s;
     tags := tags s ++ [(key, v)]; finished := finished s |}.

Definition mark_finished (s : Span) : Span :=
  {| operationName := operationName s; childOf := childOf s;
     tags := tags s; finished := S (finished s) |}.

Definition span_setTag (span : nat) (key : string) (v : TagValue) : M unit :=
  call OpSetTag (CSetTag span key v)
    (modify (set_spans (alter (push_tag key v) span))).

(** [span.finish()]: the span object is marked as finished.  Handing the
    finished span to the reporter belongs to the tracer; what the reporter
    writes to the logger is covered by [tracer_writes]. *)
Definition span_finish (span : nat) : M unit :=
  call OpSpanFinish (CSpanFinish span)
    (modify (set_spans (alter mark_finished span))).

(** *** Metrics *)

(** The value of a counter series, and the samples of a histogram
    series; a series that was never touched has none. *)
Definition counter_value (m : gmap CounterLabels nat) (l : CounterLabels) : nat :=
  default 0 (m !! l).

Definition hist_samples (m : gmap HistLabels (list N)) (l : HistLabels) : list N :=
  default [] (m !! l).

(** [httpRequestCounter.inc(labels)] *)
Definition inc (l : CounterLabels) (m : gmap CounterLabels nat) : gmap CounterLabels nat :=
  <[l := S (counter_value m l)]> m.

(** [histogram.observe(labels, d)] *)
Definition observe (l : HistLabels) (d : N) (m : gmap HistLabels (list N)) : gmap HistLabels (list N) :=
  <[l := hist_samples m l ++ [d]]> m.

Definition httpRequestCounter_inc (l : CounterLabels) : M unit :=
  call OpCounterInc (CCounterInc l) (modify (set_counter (inc l))).

(** [httpRequestDurationMicroseconds.startTimer()]: the returned [end]
    function is represented by the start time it closes over. *)
Definition httpRequestDurationMicroseconds_startTimer : M N :=
  call OpStartTimer CStartTimer (gets clock).

(** [end(labels)]: observe the time elapsed since the start. *)
Definition timer_end (start : N) (l : HistLabels) : M unit :=
  call OpTimerEnd (CTimerEnd l)
    (now <- gets clock ;;
     modify (set_histogram (observe l (now - start)))).

(** *** Logger *)

Definition logger_info (msg : string) : M unit :=
  call OpLoggerInfo (CLoggerInfo msg) (modify (set_log (fun l => l ++ [(Info, msg)]))).

Definition logger_error (msg : string) : M unit :=
  call OpLoggerError (CLoggerError msg) (modify (set_log (fun l => l ++ [(Error, msg)]))).

(** The logger handed to the tracer in [initTracer], lines 62-71: its
    [info] and [error] pass the message on to the logger of the program. *)
Definition options_logger_info (msg : string) : M unit := logger_info msg.

Definition options_logger_error (msg : string) : M unit := logger_error msg.

(** The tracer writing lines through that logger, one after the other. *)
Fixpoint tracer_writes (lines : list (Level * string)) : M unit :=
  match lines with
  | [] => ret tt
  | (Info, msg) :: rest => options_logger_info msg ;; tracer_writes rest
  | (Error, msg) :: rest => options_logger_error msg ;; tracer_writes rest
  end.

(** *** Registry text: [register.metrics()]

    The registry belongs to the prom-client library.  Its text has one
    block per registered metric, in registration order: the default
    process metrics, the counter, the histogram.  A block is a [# HELP]
    line, a [# TYPE] line and one line per series; every series carries
    the default label [app].  The order of the series of one metric is
    that of the map's enumeration. *)

(** Newline, double quote and backslash. *)
Definition nl_char : ascii := "010"%char.
Definition dq_char : ascii := "034"%char.
Definition backslash_char : ascii := "092"%char.

Definition nl : string := String nl_char EmptyString.
Definition dq : string := String dq_char EmptyString.

(** Label values are printed with backslash, newline and double quote
    escaped. *)
Fixpoint escape_label_value (s : string) : string :=
  match s with
  | EmptyString => EmptyString
  | String c r =>
      if Ascii.eqb c backslash_char
      then String backslash_char (String backslash_char (escape_label_value r))
      else if Ascii.eqb c nl_char
      then String backslash_char (String "n" (escape_label_value r))
      else if Ascii.eqb c dq_char
      then String backslash_char (String dq_char (escape_label_value r))
      else String c (escape_label_value r)
  end.

Definition render_label (kv : string * string) : string :=
  kv.1 +:+ "=" +:+ dq +:+ escape_label_value kv.2 +:+ dq.

Definition render_labels (ls : list (string * string)) : string :=
  "{" +:+ String.concat "," (map render_label ls) +:+ "}".

(** [register.setDefaultLabels({ app: 'nodejs-demo-app' })] *)
Definition default_labels : list (string * string) := [("app", "nodejs-demo-app")].

Definition counter_series (kv : CounterLabels * nat) : string :=
  "http_requests_total" +:+
  render_labels ([("method", cl_method kv.1); ("route", cl_route kv.1);
                  ("status_code", pretty (cl_status_code kv.1))] ++ default_labels) +:+
  " " +:+ pretty kv.2.

(** The block of [http_requests_total]: a metric with label names has
    no series before its first [inc]. *)
Definition counter_block (m : gmap CounterLabels nat) : list string :=
  "# HELP http_requests_total Total number of HTTP requests" ::
  "# TYPE http_requests_total counter" ::
  map counter_series (map_to_list m).

(** [buckets: [0.1, 5, 15, 50, 100, 200, 300, 400, 500]]: the bounds as
    printed, and in the unit of the clock (the timer observes seconds; the
    clock counts nanoseconds). *)
Definition buckets : list (string * N) :=
  [("0.1", 100000000); ("5", 5000000000); ("15", 15000000000);
   ("50", 50000000000); ("100", 100000000000); ("200", 200000000000);
   ("300", 300000000000); ("400", 400000000000); ("500", 500000000000)]%N.

Definition count_le (bound : N) (ds : list N) : nat :=
  length (List.filter (fun d => (d <=? bound)%N) ds).

Definition hist_labels (l : HistLabels) : list (string * string) :=
  [("method", hl_method l); ("route", hl_route l); ("code", pretty (hl_code l))]
  ++ default_labels.

Definition hist_series (kv : HistLabels * list N) : list string :=
  map (fun b : string * N =>
         "http_request_duration_ms_bucket" +:+
         render_labels (("le", b.1) :: hist_labels kv.1) +:+
         " " +:+ pretty (count_le b.2 kv.2)) buckets
  ++ ["http_request_duration_ms_bucket" +:+
        render_labels (("le", "+Inf") :: hist_labels kv.1) +:+
        " " +:+ pretty (length kv.2);
      "http_request_duration_ms_sum" +:+ render_labels (hist_labels kv.1) +:+
        " " +:+ fmt_sum kv.2;
      "http_request_duration_ms_count" +:+ render_labels (hist_labels kv.1) +:+
        " " +:+ pretty (length kv.2)].

(** The block of [http_request_duration_ms]. *)
Definition histogram_block (m : gmap HistLabels (list N)) : list string :=
  "# HELP http_request_duration_ms Duration of HTTP requests in ms" ::
  "# TYPE http_request_duration_ms histogram" ::
  concat (map hist_series (map_to_list m)).

(** Modelled from the spec: [register.metrics()], whose code is in the
    prom-client library and not in the repository.  The spec has it
    render the registry's accumulated samples in the standard exposition
    text format: the blocks of the registered metrics, separated by an
    empty line. *)
Definition metrics_text (w : World) : string :=
  String.concat (nl +:+ nl)
    (default_metrics w ++
     [String.concat nl (counter_block (counter w));
      String.concat nl (histogram_block (histogram w))])
  +:+ nl.

(** [register.contentType]; it carries a charset parameter, so [res.set]
    stores it unchanged. *)
Definition register_contentType : string :=
  "text/plain; version=0.0.4; charset=utf-8".

Definition register_metrics : M string :=
  modify (record_call CRegisterMetrics) ;; gets metrics_text.

(** *** The response object *)

(** ASCII lower case, for header names and route matching. *)
Definition to_lower (c : ascii) : ascii :=
  let n := nat_of_ascii c in
  if (65 <=? n) && (n <=? 90) then ascii_of_nat (n + 32) else c.

Fixpoint lower (s : string) : string :=
  match s with
  | EmptyString => EmptyString
  | String c r => String (to_lower c) (lower r)
  end.

(** A response to [HEAD] is sent without its body. *)
Definition wire_body (req : Request) (b : Body) : Body :=
  if String.eqb (method req) "HEAD" then NoBody else b.

Definition add_listener (l : FinishListener) (r : Response) : Response :=
  {| statusCode := statusCode r; res_headers := res_headers r; body := body r;
     ended := ended r; on_finish_listeners := on_finish_listeners r ++ [l] |}.

Definition set_header (field value : string) (r : Response) : Response :=
  {| statusCode := statusCode r;
     res_headers := <[lower field := value]> (res_headers r); body := body r;
     ended := ended r; on_finish_listeners := on_finish_listeners r |}.

Definition end_with (b : Body) (r : Response) : Response :=
  {| statusCode := statusCode r; res_headers := res_headers r; body := b;
     ended := true; on_finish_listeners := on_finish_listeners r |}.

Definition set_status (code : nat) (r : Response) : Response :=
  {| statusCode := code; res_headers := res_headers r; body := body r;
     ended := ended r; on_finish_listeners := on_finish_listeners r |}.

(** [res.on('finish', listener)] *)
Definition res_on_finish (l : FinishListener) : M unit :=
  modify (record_call (CResOn "finish")) ;;
  modify (set_res (add_listener l)).

(** [res.set(field, value)] *)
Definition res_set (field value : string) : M unit :=
  modify (record_call (CResSet field value)) ;;
  modify (set_res (set_header field value)).

(** [res.end(chunk)] *)
Definition res_end (req : Request) (chunk : string) : M unit :=
  modify (record_call (CResEnd chunk)) ;;
  modify (set_res (end_with (wire_body req (Text chunk)))).

Definition remove_header (field : string) (r : Response) : Response :=
  {| statusCode := statusCode r;
     res_headers := delete (lower field) (res_headers r); body := body r;
     ended := ended r; on_finish_listeners := on_finish_listeners r |}.

(** A [GET] route also answers [HEAD]. *)
Definition handles_method (m : string) : bool :=
  String.eqb m "GET" || String.eqb m "HEAD".

(** [req.fresh]: only a [GET] or [HEAD] request whose response stands at
    a status 2xx or 304 is tested for freshness. *)
Definition req_fresh (req : Request) (chunk : string) (r : Response) : bool :=
  handles_method (method req) &&
  ((200 <=? statusCode r) && (statusCode r <? 300) || (statusCode r =? 304)) &&
  fresh (headers req) chunk.

(** The body of [res.send(string)] in the framework: a string body is
    typed as html unless a content type is already set; a fresh request
    turns the status into 304; a response with status 204 or 304 loses
    its content type and its body.  (The entity tag and the content
    length the framework also sets are not kept among the headers.) *)
Definition send (req : Request) (chunk : string) : M unit :=
  modify (set_res (fun r =>
    match res_headers r !! "content-type" with
    | Some _ => r
    | None => set_header "Content-Type" "text/html; charset=utf-8" r
    end)) ;;
  modify (set_res (fun r => if req_fresh req chunk r then set_status 304 r else r)) ;;
  modify (set_res (fun r =>
    if (statusCode r =? 204) || (statusCode r =? 304)
    then end_with NoBody (remove_header "Content-Type" r)
    else end_with (wire_body req (Text chunk)) r)).

(** [res.send(string)] *)
Definition res_send (req : Request) (chunk : string) : M unit :=
  modify (record_call (CResSend chunk)) ;;
  send req chunk.

(** ** The program: [app.js] lines 79-108 *)

(** The listener of lines 87-96. *)
Definition on_finish (l : FinishListener) : M unit :=
  sc1 <- gets (fun w => statusCode (res w)) ;;
  httpRequestCounter_inc
    {| cl_method := method (cap_req l); cl_route := path (cap_req l);
       cl_status_code := sc1 |} ;;
  sc2 <- gets (fun w => statusCode (res w)) ;;
  timer_end (cap_end l)
    {| hl_method := method (cap_req l); hl_route := path (cap_req l);
       hl_code := sc2 |} ;;
  sc3 <- gets (fun w => statusCode (res w)) ;;
  span_setTag (cap_span l) HTTP_STATUS_CODE (TagNum sc3) ;;
  span_finish (cap_span l).

(** The middleware of lines 79-98. *)
Definition instrument (req : Request) (next : M unit) : M unit :=
  parentSpanContext <- tracer_extract FORMAT_HTTP_HEADERS (headers req) ;;
  span <- tracer_startSpan (path req) parentSpanContext
            [(SPAN_KIND, TagStr SPAN_KIND_RPC_SERVER)] ;;
  end_ <- httpRequestDurationMicroseconds_startTimer ;;
  res_on_finish {| cap_req := req; cap_span := span; cap_end := end_ |} ;;
  modify (record_call CNext) ;;
  next.

(** The handler of lines 100-103. *)
Definition hello (req : Request) : M unit :=
  logger_info "Hello World endpoint was called" ;;
  res_send req "Hello World!".

(** The handler of lines 105-108. *)
Definition metrics (req : Request) : M unit :=
  res_set "Content-Type" register_contentType ;;
  text <- register_metrics ;;
  res_end req text.

(** ** The framework around the program *)

(** A route path matches without regard to case and to one trailing
    slash (the framework's default routing options). *)
Fixpoint strip_slash (s : string) : string :=
  match s with
  | EmptyString => EmptyString
  | String c r =>
      match r with
      | EmptyString => if Ascii.eqb c "/" then EmptyString else s
      | String _ _ => String c (strip_slash r)
      end
  end.

Definition route_match (pattern p : string) : bool :=
  String.eqb (strip_slash (lower p)) (strip_slash (lower pattern)).

(** The default responder: status [code] and a page of the framework. *)
Definition finalhandler (req : Request) (code : nat) : M unit :=
  modify (set_res (set_status code)) ;;
  modify (set_res (set_header "Content-Type" "text/html; charset=utf-8")) ;;
  modify (set_res (end_with (wire_body req (FrameworkPage code)))).

(** The methods a [GET] route offers, as the framework lists them. *)
Definition route_options : list string := ["GET"; "HEAD"].

(** The framework collects the methods without repeating one. *)
Fixpoint append_methods (options ms : list string) : list string :=
  match ms with
  | [] => options
  | m :: rest =>
      append_methods
        (if existsb (String.eqb m) options then options else options ++ [m]) rest
  end.

(** [app.get(pattern, handler)] as a layer of the router: on a matching
    path the handler runs for [GET] and [HEAD], and a throw of the handler
    is answered by the default responder with status 500; an [OPTIONS]
    request notes the methods of the route and goes on; any other request
    goes on. *)
Definition route (req : Request) (pattern : string) (handler : M unit)
    (next : list string -> M unit) (options : list string) : M unit :=
  if route_match pattern (path req)
  then
    if handles_method (method req)
    then catch handler (fun _ => finalhandler req 500)
    else if String.eqb (method req) "OPTIONS"
    then next (append_methods options route_options)
    else next options
  else next options.

(** The automatic answer to [OPTIONS]: the methods collected, as [Allow]
    header and as body. *)
Definition send_options (req : Request) (options : list string) : M unit :=
  modify (set_res (set_header "Allow" (String.concat "," options))) ;;
  send req (String.concat "," options).

(** The end of the router: an [OPTIONS] request for which routes were
    found gets the automatic answer, anything else the 404 of the default
    responder. *)
Definition done (req : Request) (options : list string) : M unit :=
  if String.eqb (method req) "OPTIONS" && match options with [] => false | _ => true end
  then catch (send_options req options) (fun _ => finalhandler req 500)
  else finalhandler req 404.

(** The layers after the middleware, in registration order. *)
Definition router (req : Request) : M unit :=
  route req "/" (hello req)
    (route req "/metrics" (metrics req) (done req))
    [].

(** One request through the application. *)
Definition app_handle (req : Request) : M unit :=
  catch (instrument req (router req)) (fun _ => finalhandler req 500).

(** ** Events on the response *)

Fixpoint run_listeners (ls : list FinishListener) : M unit :=
  match ls with
  | [] => ret tt
  | l :: r => on_finish l ;; run_listeners r
  end.

(** The listener the host attaches to ['finish'] before the application
    sees the response: it detaches the socket from the response, and
    asserts first that the socket is attached to it. *)
Definition resOnFinish : M unit :=
  fun w =>
    if attached w then (Ok tt, set_attached false w) else (Throw OpDetachSocket, w).

(** [res.emit(ev)]: on ['finish'] the listener of the host runs first,
    then those of the program, which registers none for ['close']. *)
Definition emit (ev : ResEvent) : M unit :=
  match ev with
  | Finish =>
      resOnFinish ;;
      ls <- gets (fun w => on_finish_listeners (res w)) ;; run_listeners ls
  | Close => ret tt
  end.

(** The host emits each event after its delay; an exception that escapes
    a listener is uncaught and ends the process, so that nothing is
    delivered after it. *)
Fixpoint deliver (evs : list (N * ResEvent)) (w : World) : World :=
  match evs with
  | [] => w
  | e :: rest =>
      match emit e.2 (set_clock (N.add e.1) w) with
      | (Ok _, w') => deliver rest w'
      | (Throw _, w') => set_uncaught true w'
      end
  end.

(** A request and the events of its response, from state [w]: the host
    attaches the socket to a new response object, the application
    handles the request, then the events follow. *)
Definition handle_request (req : Request) (evs : list (N * ResEvent)) (w : World) : World :=
  deliver evs
    (app_handle req (set_res (fun _ => fresh_response) (set_attached true w))).2.

End Program.

(** ** Observations *)

(** How many times ['finish'] fires in a sequence of events. *)
Definition finish_count (evs : list (N * ResEvent)) : nat :=
  length (List.filter (fun e => match e.2 with Finish => true | Close => false end) evs).

(** How many ['finish'] events reach the listeners of the program: the
    first one only, since the listener of the host fails on any later
    one. *)
Definition finish_runs (evs : list (N * ResEvent)) : nat :=
  Nat.min 1 (finish_count evs).

(** The four completion actions, and the opening of a span, as calls. *)
Definition is_counter_inc (c : Call) : bool :=
  match c with CCounterInc _ => true | _ => false end.
Definition is_timer_end (c : Call) : bool :=
  match c with CTimerEnd _ => true | _ => false end.
Definition is_set_tag (c : Call) : bool :=
  match c with CSetTag _ _ _ => true | _ => false end.
Definition is_span_finish (c : Call) : bool :=
  match c with CSpanFinish _ => true | _ => false end.
Definition is_start_span (c : Call) : bool :=
  match c with CStartSpan _ _ _ => true | _ => false end.

(** One of the four completion actions. *)
Definition is_completion_call (c : Call) : bool :=
  is_counter_inc c || is_timer_end c || is_set_tag c || is_span_finish c.

(** How many calls of a trace satisfy [p]. *)
Definition count_calls (p : Call -> bool) (cs : list Call) : nat :=
  length (List.filter p cs).

(** The calls a route handler or the default responder may make. *)
Definition is_route_call (c : Call) : bool :=
  match c with
  | CLoggerInfo _ | CResSet _ _ | CResSend _ | CRegisterMetrics | CResEnd _ => true
  | _ => false
  end.

(** The middleware's [next()]. *)
Definition is_next (c : Call) : bool :=
  match c with CNext => true | _ => false end.

(** A log entry below error level. *)
Definition is_info (e : Level * string) : bool :=
  match e.1 with Info => true | Error => false end.

(** The path is the path of one of the two routes. *)
Definition routed_path (p : string) : bool :=
  route_match "/" p || route_match "/metrics" p.

(** The lines of a text. *)
Fixpoint lines_of (s : string) : list string :=
  match s with
  | EmptyString => [EmptyString]
  | String c r =>
      if Ascii.eqb c "010" then EmptyString :: lines_of r
      else match lines_of r with
           | l :: ls => String c l :: ls
           | [] => [String c EmptyString]
           end
  end.

(** Some line of [text] begins with [p]. *)
Definition has_line_beginning (p text : string) : bool :=
  existsb (String.prefix p) (lines_of text).

(** [s] lies within one line. *)
Fixpoint no_newline (s : string) : bool :=
  match s with
  | EmptyString => true
  | String c r => negb (Ascii.eqb c "010") && no_newline r
  end.

(** ** The effects of the middleware and of its listener *)

(** The span as [startSpan] creates it in the middleware. *)
Definition opened_span (extract : Headers -> option SpanContext) (req : Request) : Span :=
  {| operationName := path req; childOf := extract (headers req);
     tags := [(SPAN_KIND, TagStr SPAN_KIND_RPC_SERVER)]; finished := 0 |}.

(** What one run of the listener does to its span. *)
Definition complete_span (sc : nat) (s : Span) : Span :=
  mark_finished (push_tag HTTP_STATUS_CODE (TagNum sc) s).

(** The calls of one run of the listener. *)
Definition completion_calls (l : FinishListener) (sc : nat) : list Call :=
  [CCounterInc {| cl_method := method (cap_req l); cl_route := path (cap_req l);
                  cl_status_code := sc |};
   CTimerEnd {| hl_method := method (cap_req l); hl_route := path (cap_req l);
                hl_code := sc |};
   CSetTag (cap_span l) HTTP_STATUS_CODE (TagNum sc);
   CSpanFinish (cap_span l)].

(** The calls of the middleware before the route runs. *)
Definition middleware_calls (extract : Headers -> option SpanContext) (req : Request) : list Call :=
  [CExtract FORMAT_HTTP_HEADERS (headers req);
   CStartSpan (path req) (extract (headers req)) [(SPAN_KIND, TagStr SPAN_KIND_RPC_SERVER)];
   CStartTimer; CResOn "finish"; CNext].

(** The listener the middleware registers for [req] in state [w]. *)
Definition listener_of (req : Request) (w : World) : FinishListener :=
  {| cap_req := req; cap_span := length (spans w); cap_end := clock w |}.

(** The state after one healthy run of the listener [l]. *)
Definition completed (l : FinishListener) (w : World) : World :=
  let sc := statusCode (res w) in
  set_spans (alter mark_finished (cap_span l))
    (record_call (CSpanFinish (cap_span l))
      (set_spans (alter (push_tag HTTP_STATUS_CODE (TagNum sc)) (cap_span l))
        (record_call (CSetTag (cap_span l) HTTP_STATUS_CODE (TagNum sc))
          (set_histogram
             (observe {| hl_method := method (cap_req l); hl_route := path (cap_req l);
                         hl_code := sc |} (clock w - cap_end l))
             (record_call
                (CTimerEnd {| hl_method := method (cap_req l);
                              hl_route := path (cap_req l); hl_code := sc |})
                (set_counter
                   (inc {| cl_method := method (cap_req l); cl_route := path (cap_req l);
                           cl_status_code := sc |})
                   (record_call
                      (CCounterInc {| cl_method := method (cap_req l);
                                      cl_route := path (cap_req l);
                                      cl_status_code := sc |}) w))))))).

(** ** Health of the collaborators *)

(** The tracer and the timer do not throw while the middleware runs. *)
Definition middleware_ok (faults : Faults) : Prop :=
  faults OpExtract = false /\ faults OpStartSpan = false /\ faults OpStartTimer = false.

(** The metrics and the span do not throw while the listener runs. *)
Definition completion_ok (faults : Faults) : Prop :=
  faults OpCounterInc = false /\ faults OpTimerEnd = false /\
  faults OpSetTag = false /\ faults OpSpanFinish = false.

(** The tracer or the timer throws while the middleware runs. *)
Definition middleware_throws (faults : Faults) : bool :=
  faults OpExtract || faults OpStartSpan || faults OpStartTimer.

(** The counter, the histogram or the span throws in the listener. *)
Definition completion_throws (faults : Faults) : bool :=
  faults OpCounterInc || faults OpTimerEnd || faults OpSetTag || faults OpSpanFinish.

(** Modelled from the spec: [tracer.extract], whose code is in the tracer
    library and not in the repository.  The spec has extraction never
    fail fatally: it does not throw, and for headers that carry no valid
    context its result is "no parent".  [never_fatal faults] is [faults]
    with an [extract] that does not throw. *)
Definition never_fatal (faults : Faults) : Faults :=
  fun op => match op with OpExtract => false | _ => faults op end.

(** [tracer.extract] throws; everything else is healthy. *)
Definition tracer_down : Faults :=
  fun op => match op with OpExtract => true | _ => false end.

(** [httpRequestCounter.inc] throws; everything else is healthy. *)
Definition counter_down : Faults :=
  fun op => match op with OpCounterInc => true | _ => false end.

(** ** Sample inputs *)

(** A tracer that finds a context iff the [uber-trace-id] header is set. *)
Definition sample_extract : Headers -> option SpanContext :=
  fun hs =>
    match hs !! "uber-trace-id" with
    | Some _ => Some {| traceId := 11; spanId := 12; flags := 1 |}
    | None => None
    end.

(** A freshness test that accepts exactly the requests whose only
    conditional header is [If-None-Match: *]. *)
Definition sample_fresh : Headers -> string -> bool :=
  fun hs _ =>
    match hs !! "if-none-match", hs !! "if-modified-since", hs !! "cache-control" with
    | Some "*", None, None => true
    | _, _, _ => false
    end.

(** A stand-in for the printing of a sum of durations. *)
Definition sample_fmt_sum : list N -> string := fun ds => pretty (length ds).

(** Requests: [GET /] without and with a trace header, [GET /metrics],
    and a path no route answers. *)
Definition get_root : Request :=
  {| method := "GET"; path := "/"; headers := ∅ |}.

(** A conditional [GET /] that any entity validates. *)
Definition get_root_if_none_match : Request :=
  {| method := "GET"; path := "/"; headers := {[ "if-none-match" := "*" ]} |}.

Definition get_root_traced : Request :=
  {| method := "GET"; path := "/";
     headers := {[ "uber-trace-id" := "b:c:0:1" ]} |}.

Definition get_metrics : Request :=
  {| method := "GET"; path := "/metrics"; headers := ∅ |}.

Definition get_missing : Request :=
  {| method := "GET"; path := "/missing"; headers := ∅ |}.

(** A response that completes after 5 time units, then closes. *)
Definition completes : list (N * ResEvent) := [(5%N, Finish); (1%N, Close)].

(** A connection that is aborted: the response only closes. *)
Definition aborts : list (N * ResEvent) := [(3%N, Close)].

(** A host that would emit ['finish'] twice. *)
Definition finishes_twice : list (N * ResEvent) := [(5%N, Finish); (2%N, Finish)].

(** The text of one default process metric. *)
Definition sample_default_metrics : list string :=
  [String.concat nl
     ["# HELP process_cpu_user_seconds_total Total user CPU time spent in seconds.";
      "# TYPE process_cpu_user_seconds_total counter";
      "process_cpu_user_seconds_total" +:+ render_labels default_labels +:+ " 0.015"]].

(** The process right after start-up. *)
Definition started : World := initial_world sample_default_metrics.

(** The process after one completed [GET /]. *)
Definition served_one : World :=
  handle_request no_faults sample_extract sample_fresh sample_fmt_sum get_root completes started.

(** ** The process around the requests *)

(** Requests served one after the other, each with the events of its
    response: the registry, the spans and the log persist from one
    request to the next. *)
Definition serve (faults : Faults) (extract : Headers -> option SpanContext)
    (fresh : Headers -> string -> bool) (fmt_sum : list N -> string)
    (rs : list (Request * list (N * ResEvent))) (w : World) : World :=
  fold_left (fun w r => handle_request faults extract fresh fmt_sum r.1 r.2 w) rs w.

(** The status with which the routes answer a request when no handler
    throws: the handler of [/] answers 200, or 304 to a fresh request; the
    handler of [/metrics] answers 200; [OPTIONS] on the path of a route
    gets the automatic 200; anything else the 404 of the default
    responder. *)
Definition answer_status (fresh : Headers -> string -> bool) (req : Request) : nat :=
  if handles_method (method req)
  then
    if route_match "/" (path req)
    then (if fresh (headers req) "Hello World!" then 304 else 200)
    else if route_match "/metrics" (path req) then 200 else 404
  else
    if String.eqb (method req) "OPTIONS" && routed_path (path req) then 200 else 404.

(** The counter series of a request. *)
Definition series_of (fresh : Headers -> string -> bool) (req : Request) : CounterLabels :=
  {| cl_method := method req; cl_route := path req;
     cl_status_code := answer_status fresh req |}.

(** How many completions the requests of [rs] that fall in series [k]
    have had. *)
Fixpoint completions (fresh : Headers -> string -> bool) (k : CounterLabels)
    (rs : list (Request * list (N * ResEvent))) : nat :=
  match rs with
  | [] => 0
  | r :: rest =>
      (if decide (series_of fresh r.1 = k) then finish_runs r.2 else 0) +
      completions fresh k rest
  end.

(** The time from the start of a request to the first ['finish']. *)
Fixpoint elapsed_to_finish (evs : list (N * ResEvent)) : N :=
  match evs with
  | [] => 0
  | (d, Finish) :: _ => d
  | (d, Close) :: rest => d + elapsed_to_finish rest
  end.

(** Every histogram series holds as many samples as the value of the
    counter series with the same method, route and status. *)
Definition samples_agree (w : World) : Prop :=
  forall (m r : string) (c : nat),
    length (hist_samples (histogram w) {| hl_method := m; hl_route := r; hl_code := c |}) =
    counter_value (counter w) {| cl_method := m; cl_route := r; cl_status_code := c |}.

(** [w'] keeps what [w] has recorded: no counter series is lower, every
    histogram series, the log and the call trace are extended, and the
    spans before index [i] are the same. *)
Definition grows (i : nat) (w w' : World) : Prop :=
  (forall k, counter_value (counter w) k <= counter_value (counter w') k) /\
  (forall k, hist_samples (histogram w) k `prefix_of` hist_samples (histogram w') k) /\
  log w `prefix_of` log w' /\
  calls w `prefix_of` calls w' /\
  take i (spans w') = take i (spans w).

(** *** Start-up: lines 77 and 110-112 *)

(** A value of [process.env.PORT || 8080]: the number 8080 or the string
    found in the environment. *)
Inductive PortValue :=
| PortNumber (n : N)
| PortString (s : string).

(** [const port = process.env.PORT || 8080]: an environment variable is a
    string when set, and only the empty string is falsy. *)
Definition port (env : gmap string string) : PortValue :=
  match env !! "PORT" with
  | Some EmptyString => PortNumber 8080%N
  | Some s => PortString s
  | None => PortNumber 8080%N
  end.

(** The text of [port] in a template literal. *)
Definition port_text (p : PortValue) : string :=
  match p with
  | PortNumber n => pretty n
  | PortString s => s
  end.

(** The callback given to [app.listen], run once the server listens. *)
Definition on_listening (faults : Faults) (env : gmap string string) : M unit :=
  logger_info faults ("App listening on port " +:+ port_text (port env)).

(** *** More sample inputs *)

(** Three requests in a row: two [GET /], the second one aborted, and a
    request to a missing path. *)
Definition sample_traffic : list (Request * list (N * ResEvent)) :=
  [(get_root, completes); (get_root, aborts); (get_missing, completes)].

(** [end] throws in the listener; everything else is healthy. *)
Definition histogram_down : Faults :=
  fun op => match op with OpTimerEnd => true | _ => false end.

(** ** Lemmas on the middleware and the listener *)

Ltac run_program :=
  unfold app_handle, instrument, router, route, done, send_options, hello, metrics,
    finalhandler, tracer_extract, tracer_startSpan,
    httpRequestDurationMicroseconds_startTimer, res_on_finish, logger_info,
    res_send, send, req_fresh, res_set, register_metrics, res_end, call, catch,
    bind, modify, gets, ret.

(** Case analysis on what decides the answer of the routes. *)
Ltac route_cases :=
  repeat
    match goal with
    | |- context [route_match ?p ?q] => destruct (route_match p q) eqn:?; cbn
    | |- context [handles_method ?m] => destruct (handles_method m) eqn:?; cbn
    | |- context [String.eqb ?m "OPTIONS"] => destruct (String.eqb m "OPTIONS") eqn:?; cbn
    | |- context [?f OpLoggerInfo] => destruct (f OpLoggerInfo) eqn:?; cbn
    | |- context [?f (headers ?r) "Hello World!"] =>
        destruct (f (headers r) "Hello World!") eqn:?; cbn
    end.

Section Facts.

Variable faults : Faults.
Variable extract : Headers -> option SpanContext.
Variable fresh : Headers -> string -> bool.
Variable fmt_sum : list N -> string.

Lemma app_handle_ok (req : Request) (w : World) :
  middleware_ok faults ->
  let r := app_handle faults extract fresh fmt_sum req (set_res (fun _ => fresh_response) w) in
  r.1 = Ok tt /\
  on_finish_listeners (res r.2) =
    [{| cap_req := req; cap_span := length (spans w); cap_end := clock w |}] /\
  spans r.2 = spans w ++ [opened_span extract req] /\
  counter r.2 = counter w /\ histogram r.2 = histogram w /\
  clock r.2 = clock w /\ uncaught r.2 = uncaught w /\
  default_metrics r.2 = default_metrics w /\
  attached r.2 = attached w /\
  exists hcalls, calls r.2 = calls w ++ middleware_calls extract req ++ hcalls /\
                 forallb is_route_call hcalls = true.
Proof.
  intros (He & Hs & Ht). cbv zeta. run_program. cbn.
  rewrite He, Hs, Ht. cbn.
  route_cases;
    (do 9 (split; [reflexivity|]); eexists; split;
     [rewrite <- !app_assoc; reflexivity|reflexivity]).
Qed.

Lemma iter_complete_span (n sc : nat) (i : nat) (l : list Span) :
  alter (Nat.iter n (complete_span sc)) i
    (alter mark_finished i (alter (push_tag HTTP_STATUS_CODE (TagNum sc)) i l))
  = alter (Nat.iter (S n) (complete_span sc)) i l.
Proof.
  rewrite !list_alter_alter_eq. apply list_alter_ext; [|reflexivity].
  intros s _. cbn [compose]. rewrite Nat.iter_succ_r. reflexivity.
Qed.

(** The first ['finish'] on an attached socket: the listener of the host
    detaches it, then the listener of the program runs. *)
Lemma emit_finish_ok (w : World) (l : FinishListener) :
  completion_ok faults ->
  attached w = true ->
  on_finish_listeners (res w) = [l] ->
  emit faults Finish w = (Ok tt, completed l (set_attached false w)).
Proof.
  intros (Hi & He & Ht & Hf) Ha Hl.
  unfold emit, resOnFinish, bind, gets. rewrite Ha. cbn [set_attached res].
  rewrite Hl. cbn [run_listeners].
  unfold on_finish, httpRequestCounter_inc, timer_end, span_setTag, span_finish,
    call, bind, modify, gets, ret. cbn.
  rewrite Hi, He, Ht, Hf. reflexivity.
Qed.

(** A ['finish'] on a detached socket fails in the listener of the host,
    before any listener of the program. *)
Lemma emit_finish_detached (w : World) :
  attached w = false ->
  emit faults Finish w = (Throw OpDetachSocket, w).
Proof.
  intros Ha. unfold emit, resOnFinish, bind. rewrite Ha. reflexivity.
Qed.

(** Once the socket is detached the events change nothing any more; a
    further ['finish'] is an uncaught exception. *)
Lemma deliver_detached (evs : list (N * ResEvent)) (w : World) :
  attached w = false ->
  let w' := deliver faults evs w in
  counter w' = counter w /\ histogram w' = histogram w /\
  default_metrics w' = default_metrics w /\ spans w' = spans w /\
  log w' = log w /\ calls w' = calls w /\ res w' = res w /\
  uncaught w' = match finish_count evs with 0 => uncaught w | S _ => true end.
Proof.
  revert w. induction evs as [|[d ev] evs IH]; intros w Ha; cbv zeta.
  - repeat split; reflexivity.
  - cbn [deliver fst snd]. destruct ev.
    + rewrite (emit_finish_detached (set_clock (N.add d) w) Ha).
      repeat split; reflexivity.
    + cbn [emit ret]. apply (IH (set_clock (N.add d) w) Ha).
Qed.

Lemma finish_runs_finish (d : N) (evs : list (N * ResEvent)) :
  finish_runs ((d, Finish) :: evs) = 1.
Proof. reflexivity. Qed.

Lemma finish_count_finish (d : N) (evs : list (N * ResEvent)) :
  finish_count ((d, Finish) :: evs) = S (finish_count evs).
Proof. reflexivity. Qed.

Lemma finish_count_close (d : N) (evs : list (N * ResEvent)) :
  finish_count ((d, Close) :: evs) = finish_count evs.
Proof. reflexivity. Qed.

Lemma finish_runs_close (d : N) (evs : list (N * ResEvent)) :
  finish_runs ((d, Close) :: evs) = finish_runs evs.
Proof. reflexivity. Qed.

Lemma finish_runs_pos (evs : list (N * ResEvent)) :
  1 <= finish_count evs -> finish_runs evs = 1.
Proof. unfold finish_runs. lia. Qed.

Lemma finish_runs_zero (evs : list (N * ResEvent)) :
  finish_count evs = 0 -> finish_runs evs = 0.
Proof. unfold finish_runs. lia. Qed.

Lemma finish_runs_le (evs : list (N * ResEvent)) : finish_runs evs <= 1.
Proof. unfold finish_runs. lia. Qed.

(** The first ['finish'] runs the listener once; ['close'] and any
    later ['finish'] run nothing of the program. *)
Lemma deliver_ok (evs : list (N * ResEvent)) :
  completion_ok faults ->
  forall (w : World) (l : FinishListener),
  attached w = true ->
  on_finish_listeners (res w) = [l] ->
  let w' := deliver faults evs w in
  let sc := statusCode (res w) in
  let n := finish_runs evs in
  res w' = res w /\ log w' = log w /\
  (finish_count evs <= 1 -> uncaught w' = uncaught w) /\
  (2 <= finish_count evs -> uncaught w' = true) /\
  default_metrics w' = default_metrics w /\
  calls w' = calls w ++ concat (replicate n (completion_calls l sc)) /\
  counter w' =
    Nat.iter n (inc {| cl_method := method (cap_req l); cl_route := path (cap_req l);
                       cl_status_code := sc |}) (counter w) /\
  (exists ds, length ds = n /\
     histogram w' =
       fold_left (fun h d => observe {| hl_method := method (cap_req l);
                                        hl_route := path (cap_req l);
                                        hl_code := sc |} d h) ds (histogram w)) /\
  spans w' = alter (Nat.iter n (complete_span sc)) (cap_span l) (spans w).
Proof.
  intros Hok.
  induction evs as [|[d ev] evs IH]; intros w l Ha Hl; cbv zeta.
  - cbn. rewrite app_nil_r. repeat split; try reflexivity.
    + intros H. lia.
    + exists []. split; reflexivity.
    + symmetry. apply list_alter_id. reflexivity.
  - specialize (IH) as IH'. cbv zeta in IH'. clear IH. rename IH' into IH.
    destruct ev.
    + cbn [deliver fst snd].
      rewrite (emit_finish_ok (set_clock (N.add d) w) l Hok Ha Hl).
      set (W1 := completed l (set_attached false (set_clock (N.add d) w))).
      destruct (deliver_detached evs W1 eq_refl)
        as (Hc & Hh & Hdm & Hs & Hlog & Hcalls & Hr & Hu).
      rewrite finish_runs_finish, finish_count_finish.
      split; [rewrite Hr; reflexivity|].
      split; [rewrite Hlog; reflexivity|].
      split; [intros Hle; rewrite Hu; destruct (finish_count evs); [reflexivity|lia]|].
      split; [intros Hge; rewrite Hu; destruct (finish_count evs); [lia|reflexivity]|].
      split; [rewrite Hdm; reflexivity|].
      split; [rewrite Hcalls; cbn; rewrite <- !app_assoc; reflexivity|].
      split; [rewrite Hc; reflexivity|].
      split.
      * eexists [_]. split; [reflexivity|]. rewrite Hh. reflexivity.
      * rewrite Hs. unfold W1, completed.
        cbn [set_spans record_call set_histogram set_counter set_attached set_clock
             spans res statusCode].
        rewrite <- (iter_complete_span 0). symmetry. apply list_alter_id. reflexivity.
    + cbn [deliver fst snd emit ret].
      rewrite finish_runs_close, finish_count_close.
      apply (IH (set_clock (N.add d) w) l Ha Hl).
Qed.

(** A request with healthy collaborators: the middleware, the routes,
    then one run of the listener if the response finishes. *)
Lemma handle_request_ok (req : Request) (evs : list (N * ResEvent)) (w : World) :
  middleware_ok faults -> completion_ok faults ->
  let w1 := (app_handle faults extract fresh fmt_sum req
               (set_res (fun _ => fresh_response) (set_attached true w))).2 in
  let w' := handle_request faults extract fresh fmt_sum req evs w in
  let sc := statusCode (res w1) in
  let n := finish_runs evs in
  res w' = res w1 /\ log w' = log w1 /\
  (finish_count evs <= 1 -> uncaught w' = uncaught w) /\
  (exists hcalls,
     calls w' = calls w ++ middleware_calls extract req ++ hcalls ++
                concat (replicate n (completion_calls (listener_of req w) sc)) /\
     forallb is_route_call hcalls = true) /\
  counter w' =
    Nat.iter n (inc {| cl_method := method req; cl_route := path req;
                       cl_status_code := sc |}) (counter w) /\
  (exists ds, length ds = n /\
     histogram w' =
       fold_left (fun h d => observe {| hl_method := method req; hl_route := path req;
                                        hl_code := sc |} d h) ds (histogram w)) /\
  spans w' = spans w ++ [Nat.iter n (complete_span sc) (opened_span extract req)].
Proof.
  intros Hm Hc. cbv zeta. unfold handle_request.
  destruct (app_handle_ok req (set_attached true w) Hm)
    as (_ & Hl & Hsp & Hcnt & Hh & _ & Hu & _ & Ha & hcalls & Hcalls & Hroute).
  cbv zeta in Hl, Hsp, Hcnt, Hh, Hu, Ha, Hcalls.
  cbn [set_attached spans counter histogram clock uncaught attached calls]
    in Hl, Hsp, Hcnt, Hh, Hu, Ha, Hcalls.
  set (w1 := (app_handle faults extract fresh fmt_sum req
                (set_res (fun _ => fresh_response) (set_attached true w))).2) in *.
  destruct (deliver_ok evs Hc w1 _ Ha Hl)
    as (Hr' & Hlog' & Hu' & _ & _ & Hcalls' & Hcnt' & (ds & Hlen & Hh') & Hsp').
  cbn [cap_req cap_span] in Hcalls', Hcnt', Hh', Hsp'.
  split; [exact Hr'|]. split; [exact Hlog'|].
  split; [intros Hle; rewrite (Hu' Hle); exact Hu|].
  split.
  { exists hcalls. split; [|exact Hroute].
    rewrite Hcalls', Hcalls, <- !app_assoc. reflexivity. }
  split; [rewrite Hcnt', Hcnt; reflexivity|].
  split; [exists ds; split; [exact Hlen|rewrite Hh', Hh; reflexivity]|].
  rewrite Hsp', Hsp.
  replace (length (spans w)) with (length (spans w) + 0) by lia.
  rewrite alter_app_r. reflexivity.
Qed.

(** A second ['finish'] is an uncaught exception of the host. *)
Lemma handle_request_second_finish (req : Request) (evs : list (N * ResEvent)) (w : World) :
  middleware_ok faults -> completion_ok faults ->
  2 <= finish_count evs ->
  uncaught (handle_request faults extract fresh fmt_sum req evs w) = true.
Proof.
  intros Hm Hc Hn. unfold handle_request.
  destruct (app_handle_ok req (set_attached true w) Hm)
    as (_ & Hl & _ & _ & _ & _ & _ & _ & Ha & _).
  cbv zeta in Hl, Ha. cbn [set_attached attached spans clock] in Hl, Ha.
  destruct (deliver_ok evs Hc _ _ Ha Hl) as (_ & _ & _ & Hu & _).
  exact (Hu Hn).
Qed.

End Facts.

Lemma filter_route_calls (p : Call -> bool) (cs : list Call) :
  (forall c, is_route_call c = true -> p c = false) ->
  forallb is_route_call cs = true ->
  List.filter p cs = [].
Proof.
  intros Hp. induction cs as [|c cs IH]; cbn; [reflexivity|].
  intros H. apply andb_true_iff in H as [Hc Hcs].
  rewrite (Hp c Hc). apply IH, Hcs.
Qed.

Lemma count_route_calls (p : Call -> bool) (cs : list Call) :
  (forall c, is_route_call c = true -> p c = false) ->
  forallb is_route_call cs = true ->
  count_calls p cs = 0.
Proof.
  intros Hp H. unfold count_calls. rewrite (filter_route_calls p cs Hp H). reflexivity.
Qed.

Lemma count_calls_app (p : Call -> bool) (a b : list Call) :
  count_calls p (a ++ b) = count_calls p a + count_calls p b.
Proof. unfold count_calls. rewrite List.filter_app, length_app. reflexivity. Qed.

Lemma count_calls_completions (p : Call -> bool) (n : nat) (cs : list Call) :
  count_calls p (concat (replicate n cs)) = n * count_calls p cs.
Proof.
  induction n as [|n IH]; [reflexivity|].
  cbn [replicate concat]. rewrite count_calls_app, IH. lia.
Qed.

Lemma logger_fault_middleware_ok (b : bool) : middleware_ok (logger_fault b).
Proof. repeat split. Qed.

Lemma logger_fault_completion_ok (b : bool) : completion_ok (logger_fault b).
Proof. repeat split. Qed.

Lemma no_faults_middleware_ok : middleware_ok no_faults.
Proof. repeat split. Qed.

Lemma no_faults_completion_ok : completion_ok no_faults.
Proof. repeat split. Qed.

Lemma finished_iter_complete (n sc : nat) (s : Span) :
  finished (Nat.iter n (complete_span sc) s) = n + finished s.
Proof.
  induction n as [|n IH]; [reflexivity|].
  rewrite Nat.iter_succ. cbn. rewrite IH. reflexivity.
Qed.

(** ** The routes *)

Section Routes.

Variable faults : Faults.
Variable extract : Headers -> option SpanContext.
Variable fresh : Headers -> string -> bool.
Variable fmt_sum : list N -> string.
Hypothesis Hmw : middleware_ok faults.
Hypothesis Hlogger : faults OpLoggerInfo = false.

Lemma answered_status (req : Request) (w : World) :
  let w1 := (app_handle faults extract fresh fmt_sum req
               (set_res (fun _ => fresh_response) w)).2 in
  statusCode (res w1) = answer_status fresh req /\
  exists entries, log w1 = log w ++ entries /\ forallb is_info entries = true.
Proof.
  destruct Hmw as (He & Hs & Ht). cbv zeta. unfold answer_status, routed_path.
  run_program. cbn. rewrite He, Hs, Ht. cbn. rewrite ?Hlogger.
  route_cases; rewrite ?Hlogger; cbn;
    (split; [reflexivity|]);
    first [ exists []; rewrite app_nil_r; split; reflexivity
          | eexists; split; reflexivity ].
Qed.

Lemma hello_answer (hs : Headers) (w : World) :
  let req := {| method := "GET"; path := "/"; headers := hs |} in
  let w1 := (app_handle faults extract fresh fmt_sum req
               (set_res (fun _ => fresh_response) w)).2 in
  (if fresh hs "Hello World!"
   then statusCode (res w1) = 304 /\ body (res w1) = NoBody
   else statusCode (res w1) = 200 /\ body (res w1) = Text "Hello World!") /\
  log w1 = log w ++ [(Info, "Hello World endpoint was called")] /\
  calls w1 =
    calls w ++ middleware_calls extract {| method := "GET"; path := "/"; headers := hs |} ++
    [CLoggerInfo "Hello World endpoint was called"; CResSend "Hello World!"].
Proof.
  destruct Hmw as (He & Hs & Ht). cbv zeta.
  run_program. cbn [path method headers].
  change (route_match "/" "/") with true. change (handles_method "GET") with true.
  cbn. rewrite He, Hs, Ht. cbn. rewrite Hlogger. cbn.
  destruct (fresh hs "Hello World!"); cbn;
    (split; [split; reflexivity|]; split; [reflexivity|];
     rewrite <- ?app_assoc; reflexivity).
Qed.

Lemma metrics_answer (hs : Headers) (w : World) :
  let req := {| method := "GET"; path := "/metrics"; headers := hs |} in
  let w1 := (app_handle faults extract fresh fmt_sum req
               (set_res (fun _ => fresh_response) w)).2 in
  statusCode (res w1) = 200 /\
  res_headers (res w1) !! "content-type" = Some register_contentType /\
  body (res w1) = Text (metrics_text fmt_sum w) /\
  log w1 = log w.
Proof.
  destruct Hmw as (He & Hs & Ht). cbv zeta.
  run_program. cbn. rewrite He, Hs, Ht. cbn.
  repeat split; reflexivity.
Qed.

(** A path that no route has is answered by the default responder,
    whatever the method. *)
Lemma missing_answer (req : Request) (w : World) :
  routed_path (path req) = false ->
  let w1 := (app_handle faults extract fresh fmt_sum req
               (set_res (fun _ => fresh_response) w)).2 in
  statusCode (res w1) = 404 /\ body (res w1) = wire_body req (FrameworkPage 404) /\
  log w1 = log w.
Proof.
  destruct Hmw as (He & Hs & Ht). unfold routed_path. intros Hreg.
  apply orb_false_iff in Hreg as [H1 H2]. cbv zeta.
  run_program. cbn. rewrite He, Hs, Ht. cbn. rewrite H1, H2. cbn.
  route_cases; repeat split; reflexivity.
Qed.

End Routes.

(** ** The lines of the registry text *)

Lemma append_cons (c : ascii) (a b : string) :
  String c a +:+ b = String c (a +:+ b).
Proof. reflexivity. Qed.

Lemma append_nil (b : string) : EmptyString +:+ b = b.
Proof. reflexivity. Qed.

Lemma lines_of_nonempty (s : string) : lines_of s <> [].
Proof.
  induction s as [|c s IH]; cbn; [discriminate|].
  destruct (Ascii.eqb c "010"); [discriminate|].
  destruct (lines_of s); discriminate.
Qed.

Lemma lines_of_app_nl (a b : string) :
  lines_of (a +:+ String nl_char b) = lines_of a ++ lines_of b.
Proof.
  induction a as [|c a IH].
  - reflexivity.
  - rewrite append_cons. cbn [lines_of]. rewrite IH.
    destruct (Ascii.eqb c "010"); [reflexivity|].
    pose proof (lines_of_nonempty a) as Hne.
    destruct (lines_of a); [contradiction|reflexivity].
Qed.

Lemma has_line_app_nl (p a b : string) :
  has_line_beginning p (a +:+ String nl_char b) =
  has_line_beginning p a || has_line_beginning p b.
Proof. unfold has_line_beginning. rewrite lines_of_app_nl. apply existsb_app. Qed.

Lemma has_line_trailing_nl (p a : string) :
  has_line_beginning p (a +:+ nl) =
  has_line_beginning p a || has_line_beginning p EmptyString.
Proof. apply has_line_app_nl. Qed.

Lemma prefix_append (p l : string) : String.prefix p (p +:+ l) = true.
Proof.
  induction p as [|c p IH]; [destruct l; reflexivity|].
  rewrite append_cons. cbn. destruct (ascii_dec c c); [exact IH|contradiction].
Qed.

Lemma first_line_append (p r : string) :
  no_newline p = true ->
  exists l ls, lines_of (p +:+ r) = (p +:+ l) :: ls.
Proof.
  induction p as [|c p IH]; intros Hp.
  - rewrite append_nil. pose proof (lines_of_nonempty r) as Hne.
    destruct (lines_of r) as [|l ls]; [contradiction|]. exists l, ls. reflexivity.
  - cbn in Hp. apply andb_true_iff in Hp as [Hc Hp].
    destruct (IH Hp) as (l & ls & Hl).
    rewrite append_cons. cbn [lines_of]. rewrite Hl.
    destruct (Ascii.eqb c "010"); [discriminate Hc|].
    exists l, ls. reflexivity.
Qed.

Lemma has_line_first (p r : string) :
  no_newline p = true -> has_line_beginning p (p +:+ r) = true.
Proof.
  intros Hp. destruct (first_line_append p r Hp) as (l & ls & Hl).
  unfold has_line_beginning. rewrite Hl. cbn. rewrite prefix_append. reflexivity.
Qed.

(** A line of a block is a line of the blocks joined by newlines. *)
Lemma has_line_concat (p sep' : string) (blocks : list string) (y : string) :
  (forall t, has_line_beginning p t = true -> has_line_beginning p (sep' +:+ t) = true) ->
  In y blocks ->
  has_line_beginning p y = true ->
  has_line_beginning p (String.concat (String nl_char sep') blocks) = true.
Proof.
  intros Hsep Hin Hy. induction blocks as [|x xs IH]; [contradiction|].
  destruct xs as [|x' xs].
  - destruct Hin as [->|[]]. exact Hy.
  - change (String.concat (String nl_char sep') (x :: x' :: xs))
      with (x +:+ String nl_char sep' +:+ String.concat (String nl_char sep') (x' :: xs)).
    rewrite append_cons, has_line_app_nl.
    destruct Hin as [->|Hin].
    + rewrite Hy. reflexivity.
    + rewrite (Hsep _ (IH Hin)). apply orb_true_r.
Qed.

Lemma counter_series_line (kv : CounterLabels * nat) :
  has_line_beginning "http_requests_total" (counter_series kv) = true.
Proof. unfold counter_series. apply has_line_first. reflexivity. Qed.

(** Once the counter holds a series, the registry text has a line that
    begins with the counter's name. *)
Lemma metrics_text_counter_line (fmt_sum : list N -> string) (w : World) :
  counter w <> ∅ ->
  has_line_beginning "http_requests_total" (metrics_text fmt_sum w) = true.
Proof.
  intros Hne. unfold metrics_text.
  rewrite has_line_trailing_nl. apply orb_true_iff. left.
  change (nl +:+ nl) with (String nl_char nl).
  apply has_line_concat with (y := String.concat nl (counter_block (counter w))).
  - intros t Ht. change (nl +:+ t) with (EmptyString +:+ String nl_char t).
    rewrite has_line_app_nl, Ht. apply orb_true_r.
  - apply in_or_app. right. left. reflexivity.
  - destruct (map_to_list (counter w)) as [|kv rest] eqn:Hl.
    + apply map_to_list_empty_iff in Hl. contradiction.
    + apply has_line_concat with (y := counter_series kv).
      * intros t Ht. exact Ht.
      * unfold counter_block. rewrite Hl. right. right. left. reflexivity.
      * apply counter_series_line.
Qed.


(** ** When a collaborator throws *)

Lemma middleware_throws_false (faults : Faults) :
  middleware_throws faults = false -> middleware_ok faults.
Proof.
  unfold middleware_throws, middleware_ok. intros H.
  apply orb_false_iff in H as [H Ht]. apply orb_false_iff in H as [He Hs].
  repeat split; assumption.
Qed.

Lemma completion_throws_false (faults : Faults) :
  completion_throws faults = false -> completion_ok faults.
Proof.
  unfold completion_throws, completion_ok. intros H.
  apply orb_false_iff in H as [H Hf]. apply orb_false_iff in H as [H Ht].
  apply orb_false_iff in H as [Hi He].
  repeat split; assumption.
Qed.

Section Throws.

Variable faults : Faults.
Variable extract : Headers -> option SpanContext.
Variable fresh : Headers -> string -> bool.
Variable fmt_sum : list N -> string.

(** Without a listener of the program the events of the response run
    nothing of it. *)
Lemma deliver_no_listener (evs : list (N * ResEvent)) (w : World) :
  on_finish_listeners (res w) = [] ->
  let w' := deliver faults evs w in
  res w' = res w /\ log w' = log w /\ calls w' = calls w /\
  counter w' = counter w /\ histogram w' = histogram w /\
  spans w' = spans w /\
  (attached w = true -> finish_count evs <= 1 -> uncaught w' = uncaught w).
Proof.
  revert w. induction evs as [|[d ev] evs IH]; intros w Hl; cbv zeta.
  - repeat split; reflexivity.
  - cbn [deliver fst snd]. destruct ev.
    + destruct (attached w) eqn:Ha.
      * assert (Hemit : emit faults Finish (set_clock (N.add d) w) =
                        (Ok tt, set_attached false (set_clock (N.add d) w))).
        { unfold emit, resOnFinish, bind, gets. cbn [set_clock attached].
          rewrite Ha. cbn [set_attached res set_clock]. rewrite Hl. reflexivity. }
        rewrite Hemit.
        destruct (deliver_detached faults evs
                    (set_attached false (set_clock (N.add d) w)) eq_refl)
          as (Hc & Hh & _ & Hs & Hlog & Hcalls & Hr & Hu).
        rewrite Hr, Hlog, Hcalls, Hc, Hh, Hs. do 6 (split; [reflexivity|]).
        intros _ Hle. rewrite Hu. rewrite finish_count_finish in Hle.
        destruct (finish_count evs); [reflexivity|lia].
      * rewrite (emit_finish_detached faults (set_clock (N.add d) w) Ha).
        do 6 (split; [reflexivity|]). intros Hc. discriminate Hc.
    + cbn [emit ret]. rewrite finish_count_close.
      apply (IH (set_clock (N.add d) w) Hl).
Qed.

(** A throw in the middleware reaches the framework: the default
    responder answers 500 and no route has run. *)
Lemma app_handle_throws (req : Request) (w : World) :
  middleware_throws faults = true ->
  let r := app_handle faults extract fresh fmt_sum req
             (set_res (fun _ => fresh_response) w) in
  statusCode (res r.2) = 500 /\
  body (res r.2) = wire_body req (FrameworkPage 500) /\
  on_finish_listeners (res r.2) = [] /\
  log r.2 = log w /\ counter r.2 = counter w /\ histogram r.2 = histogram w /\
  uncaught r.2 = uncaught w /\ attached r.2 = attached w /\
  exists new, calls r.2 = calls w ++ new /\
              count_calls is_next new = 0 /\ count_calls is_route_call new = 0.
Proof.
  unfold middleware_throws. intros H. cbv zeta.
  destruct (faults OpExtract) eqn:He.
  { run_program. cbn. rewrite He. cbn.
    repeat split; try reflexivity. eexists. split; [reflexivity|]. split; reflexivity. }
  destruct (faults OpStartSpan) eqn:Hs.
  { run_program. cbn. rewrite He. cbn. rewrite Hs. cbn.
    repeat split; try reflexivity. eexists. split.
    - rewrite <- !app_assoc. reflexivity.
    - split; reflexivity. }
  destruct (faults OpStartTimer) eqn:Ht; [|discriminate H].
  run_program. cbn. rewrite He. cbn. rewrite Hs. cbn. rewrite Ht. cbn.
  repeat split; try reflexivity. eexists. split.
  - rewrite <- !app_assoc. reflexivity.
  - split; reflexivity.
Qed.

(** A throw in the listener escapes it; the response and the log are
    as they were. *)
Lemma emit_finish_throws (w : World) (l : FinishListener) :
  completion_throws faults = true ->
  on_finish_listeners (res w) = [l] ->
  exists op w2, emit faults Finish w = (Throw op, w2) /\
                res w2 = res w /\ log w2 = log w.
Proof.
  unfold completion_throws. intros H Hl.
  unfold emit, resOnFinish, bind, gets.
  destruct (attached w); [|eexists _, _; repeat split; reflexivity].
  cbn [set_attached res]. rewrite Hl. cbn [run_listeners].
  unfold on_finish, httpRequestCounter_inc, timer_end, span_setTag, span_finish,
    call, bind, modify, gets, ret. cbn.
  destruct (faults OpCounterInc); [eexists _, _; repeat split; reflexivity|].
  cbn. destruct (faults OpTimerEnd); [eexists _, _; repeat split; reflexivity|].
  cbn. destruct (faults OpSetTag); [eexists _, _; repeat split; reflexivity|].
  cbn. destruct (faults OpSpanFinish); [eexists _, _; repeat split; reflexivity|].
  discriminate H.
Qed.

Lemma deliver_throws (evs : list (N * ResEvent)) (w : World) (l : FinishListener) :
  completion_throws faults = true ->
  on_finish_listeners (res w) = [l] ->
  1 <= finish_count evs ->
  let w' := deliver faults evs w in
  res w' = res w /\ log w' = log w /\ uncaught w' = true.
Proof.
  intros Hthrow. revert w.
  induction evs as [|[d ev] evs IH]; intros w Hl Hn; cbv zeta.
  - cbn in Hn. lia.
  - cbn [deliver fst snd]. destruct ev.
    + destruct (emit_finish_throws (set_clock (N.add d) w) l Hthrow Hl)
        as (op & w2 & -> & Hr & Hlog).
      cbn. repeat split; assumption.
    + cbn [emit ret]. apply (IH (set_clock (N.add d) w) Hl).
      rewrite finish_count_close in Hn. exact Hn.
Qed.

(** Whatever throws, the middleware and the routes perform none of the
    completion actions. *)
Lemma app_handle_calls_any (req : Request) (w : World) :
  let r := app_handle faults extract fresh fmt_sum req
             (set_res (fun _ => fresh_response) w) in
  (on_finish_listeners (res r.2) = [] \/
   on_finish_listeners (res r.2) = [listener_of req w]) /\
  exists new, calls r.2 = calls w ++ new /\
              forallb (fun c => negb (is_completion_call c)) new = true.
Proof.
  cbv zeta. run_program. cbn.
  destruct (faults OpExtract); cbn;
    [split; [left; reflexivity|];
     eexists; split; [rewrite <- ?app_assoc; reflexivity|reflexivity]|].
  destruct (faults OpStartSpan); cbn;
    [split; [left; reflexivity|];
     eexists; split; [rewrite <- ?app_assoc; reflexivity|reflexivity]|].
  destruct (faults OpStartTimer); cbn;
    [split; [left; reflexivity|];
     eexists; split; [rewrite <- ?app_assoc; reflexivity|reflexivity]|].
  route_cases;
    (split; [right; reflexivity|];
     eexists; split; [rewrite <- ?app_assoc; reflexivity|reflexivity]).
Qed.

(** Whatever throws, one ['finish'] makes the calls of the listener up to
    the one that throws, and detaches the socket. *)
Lemma emit_finish_calls_any (w : World) (l : FinishListener) :
  on_finish_listeners (res w) = [l] ->
  let r := emit faults Finish w in
  res r.2 = res w /\ attached r.2 = false /\
  exists new, calls r.2 = calls w ++ new /\
              new `prefix_of` completion_calls l (statusCode (res w)).
Proof.
  intros Hl. cbv zeta. unfold emit, resOnFinish, bind, gets.
  destruct (attached w) eqn:Ha; cbn [snd].
  2: { split; [reflexivity|]. split; [exact Ha|].
       exists []. rewrite app_nil_r. split; [reflexivity|apply prefix_nil]. }
  cbn [set_attached res]. rewrite Hl. cbn [run_listeners].
  unfold on_finish, httpRequestCounter_inc, timer_end, span_setTag, span_finish,
    call, bind, modify, gets, ret, completion_calls. cbn.
  destruct (faults OpCounterInc); cbn;
    [do 2 (split; [reflexivity|]); eexists; split;
     [rewrite <- ?app_assoc; reflexivity|eexists; reflexivity]|].
  destruct (faults OpTimerEnd); cbn;
    [do 2 (split; [reflexivity|]); eexists; split;
     [rewrite <- ?app_assoc; reflexivity|eexists; reflexivity]|].
  destruct (faults OpSetTag); cbn;
    [do 2 (split; [reflexivity|]); eexists; split;
     [rewrite <- ?app_assoc; reflexivity|eexists; reflexivity]|].
  destruct (faults OpSpanFinish); cbn;
    (do 2 (split; [reflexivity|]); eexists; split;
     [rewrite <- ?app_assoc; reflexivity|eexists; reflexivity]).
Qed.

Lemma deliver_calls_any (evs : list (N * ResEvent)) (w : World) (l : FinishListener) :
  on_finish_listeners (res w) = [] \/ on_finish_listeners (res w) = [l] ->
  exists new, calls (deliver faults evs w) = calls w ++ new /\
              new `prefix_of` completion_calls l (statusCode (res w)).
Proof.
  intros [Hnone|Hl].
  - destruct (deliver_no_listener evs w Hnone) as (_ & _ & Hcalls & _).
    exists []. rewrite app_nil_r. split; [exact Hcalls|apply prefix_nil].
  - revert w Hl. induction evs as [|[d ev] evs IH]; intros w Hl.
    + exists []. rewrite app_nil_r. split; [reflexivity|apply prefix_nil].
    + cbn [deliver fst snd]. destruct ev.
      * destruct (emit_finish_calls_any (set_clock (N.add d) w) l Hl)
          as (Hr & Ha & new & Hcalls & Hpre).
        cbv zeta in Hr, Ha, Hcalls.
        destruct (emit faults Finish (set_clock (N.add d) w)) as [[u|op] w2];
          cbn [snd] in Hr, Ha, Hcalls.
        -- destruct (deliver_detached faults evs w2 Ha) as (_ & _ & _ & _ & _ & Hc' & _).
           exists new. split; [rewrite Hc'; exact Hcalls|exact Hpre].
        -- exists new. split; [exact Hcalls|exact Hpre].
      * cbn [emit ret]. apply (IH (set_clock (N.add d) w) Hl).
Qed.

End Throws.

Lemma count_calls_prefix (p : Call -> bool) (a b : list Call) :
  a `prefix_of` b -> count_calls p a <= count_calls p b.
Proof. intros [k ->]. rewrite count_calls_app. lia. Qed.

Lemma count_no_completion_call (p : Call -> bool) (cs : list Call) :
  (forall c, p c = true -> is_completion_call c = true) ->
  forallb (fun c => negb (is_completion_call c)) cs = true ->
  count_calls p cs = 0.
Proof.
  intros Hp. unfold count_calls. induction cs as [|c cs IH]; cbn; [reflexivity|].
  intros H. apply andb_true_iff in H as [Hc Hcs].
  destruct (p c) eqn:Hpc; [|apply IH, Hcs].
  rewrite (Hp c Hpc) in Hc. discriminate Hc.
Qed.

(** Whatever throws, a request makes each completion action at most
    once. *)
Lemma handle_request_calls_any
    (faults : Faults) (extract : Headers -> option SpanContext)
    (fresh : Headers -> string -> bool) (fmt_sum : list N -> string)
    (req : Request) (evs : list (N * ResEvent)) (w : World) (p : Call -> bool) :
  (forall c, p c = true -> is_completion_call c = true) ->
  (forall l sc, count_calls p (completion_calls l sc) = 1) ->
  exists new,
    calls (handle_request faults extract fresh fmt_sum req evs w) = calls w ++ new /\
    count_calls p new <= 1.
Proof.
  intros Hp Hone. unfold handle_request.
  destruct (app_handle_calls_any faults extract fresh fmt_sum req (set_attached true w))
    as (Hl & new0 & Hcalls0 & Hnone).
  cbv zeta in Hcalls0, Hl.
  destruct (deliver_calls_any faults evs _ (listener_of req (set_attached true w)) Hl)
    as (new1 & Hcalls1 & Hpre).
  exists (new0 ++ new1). split.
  - rewrite Hcalls1, Hcalls0, <- app_assoc. reflexivity.
  - rewrite count_calls_app, (count_no_completion_call p new0 Hp Hnone).
    pose proof (count_calls_prefix p _ _ Hpre) as Hle. rewrite Hone in Hle. exact Hle.
Qed.

(** What the tracer writes through the logger it was given lands in the
    log of the program, at the level the tracer chose, and touches
    nothing else. *)
Lemma tracer_writes_ok (faults : Faults) (lines : list (Level * string)) (w : World) :
  faults OpLoggerInfo = false -> faults OpLoggerError = false ->
  exists w1,
    tracer_writes faults lines w = (Ok tt, w1) /\
    log w1 = log w ++ lines /\ res w1 = res w /\
    counter w1 = counter w /\ histogram w1 = histogram w /\
    uncaught w1 = uncaught w.
Proof.
  intros Hi He. revert w. induction lines as [|[lvl msg] lines IH]; intros w.
  - exists w. rewrite app_nil_r. repeat split; reflexivity.
  - destruct lvl; cbn [tracer_writes];
      unfold options_logger_info, options_logger_error, logger_info, logger_error,
        call, bind, modify; rewrite ?Hi, ?He;
      match goal with
      | |- context [tracer_writes faults lines ?w0] =>
          destruct (IH w0) as (w1 & -> & Hlog & Hr & Hc & Hh & Hu)
      end;
      exists w1; (split; [reflexivity|]);
      cbn in Hlog, Hr, Hc, Hh, Hu; rewrite <- app_assoc in Hlog;
      repeat split; assumption.
Qed.

(** ** Series of the registry *)

Lemma counter_value_inc (l k : CounterLabels) (m : gmap CounterLabels nat) :
  counter_value (inc l m) k =
  if decide (l = k) then S (counter_value m k) else counter_value m k.
Proof.
  unfold counter_value at 1, inc. destruct (decide (l = k)) as [->|Hne].
  - rewrite lookup_insert_eq. reflexivity.
  - rewrite lookup_insert_ne by exact Hne. reflexivity.
Qed.

Lemma counter_value_iter_inc (n : nat) (l k : CounterLabels) (m : gmap CounterLabels nat) :
  counter_value (Nat.iter n (inc l) m) k =
  (if decide (l = k) then n else 0) + counter_value m k.
Proof.
  induction n as [|n IH]; cbn [Nat.iter nat_rect].
  - destruct (decide (l = k)); reflexivity.
  - change (nat_rect _ m (fun _ => inc l) n) with (Nat.iter n (inc l) m).
    rewrite counter_value_inc, IH. destruct (decide (l = k)); reflexivity.
Qed.

Lemma hist_samples_observe (l k : HistLabels) (d : N) (m : gmap HistLabels (list N)) :
  hist_samples (observe l d m) k =
  if decide (l = k) then hist_samples m k ++ [d] else hist_samples m k.
Proof.
  unfold hist_samples at 1, observe. destruct (decide (l = k)) as [->|Hne].
  - rewrite lookup_insert_eq. reflexivity.
  - rewrite lookup_insert_ne by exact Hne. reflexivity.
Qed.

(** ** The properties of the specification, C1 to C10 *)

(** C1 fails on the code as stated: the samples are recorded by the
    listener of ['finish'] only.  When the client disconnects before the
    response completes, the host emits only ['close'], and the request
    leaves neither a counter sample nor a histogram sample. *)
Lemma aborted_request_records_no_sample :
  let w' := handle_request no_faults sample_extract sample_fresh sample_fmt_sum
              get_root aborts started in
  let sc := statusCode (res w') in
  ~ (counter w' =
       inc {| cl_method := "GET"; cl_route := "/"; cl_status_code := sc |}
         (counter started) /\
     exists d, histogram w' =
       observe {| hl_method := "GET"; hl_route := "/"; hl_code := sc |} d
         (histogram started)).
Proof.
  cbv zeta. intros (H & _). vm_compute in H. discriminate H.
Qed.

(** C1, amended.  A request whose response completes (its ['finish']
    event fires) records exactly one counter sample, labelled with the
    request's method, its path as [route] and the final status as
    [status_code], and exactly one histogram sample, labelled with the
    method, the path as [route] and the final status as [code].  This
    holds whatever the final status is: 200 or 304 of a route, the 200 of
    the automatic answer to [OPTIONS], 404 of the default responder, or
    500 after a handler that threw ([b = true]).  A request whose response
    never fires ['finish'] records no sample. *)
Theorem one_counter_and_one_histogram_sample_per_request
    (b : bool) (extract : Headers -> option SpanContext)
    (fresh : Headers -> string -> bool) (fmt_sum : list N -> string)
    (req : Request) (evs : list (N * ResEvent)) (w : World) :
  let w' := handle_request (logger_fault b) extract fresh fmt_sum req evs w in
  let sc := statusCode (res w') in
  let cl := {| cl_method := method req; cl_route := path req; cl_status_code := sc |} in
  let hl := {| hl_method := method req; hl_route := path req; hl_code := sc |} in
  (1 <= finish_count evs ->
     counter w' = inc cl (counter w) /\
     (exists d, histogram w' = observe hl d (histogram w)) /\
     exists new, calls w' = calls w ++ new /\
                 List.filter is_counter_inc new = [CCounterInc cl] /\
                 List.filter is_timer_end new = [CTimerEnd hl]) /\
  (finish_count evs = 0 ->
     counter w' = counter w /\ histogram w' = histogram w /\
     exists new, calls w' = calls w ++ new /\
                 List.filter is_counter_inc new = [] /\
                 List.filter is_timer_end new = []).
Proof.
  cbv zeta.
  destruct (handle_request_ok (logger_fault b) extract fresh fmt_sum req evs w
              (logger_fault_middleware_ok b) (logger_fault_completion_ok b))
    as (Hr & _ & _ & (hcalls & Hcalls & Hroute) & Hcnt & (ds & Hlen & Hh) & _).
  cbv zeta in Hr, Hcalls, Hcnt, Hh. rewrite <- Hr in Hcalls, Hcnt, Hh.
  split; intros Hn.
  - rewrite (finish_runs_pos evs Hn) in Hcalls, Hcnt, Hlen.
    split; [exact Hcnt|]. split.
    + destruct ds as [|d [|? ?]]; try discriminate Hlen. exists d. exact Hh.
    + eexists. split; [exact Hcalls|].
      rewrite !List.filter_app.
      rewrite (filter_route_calls is_counter_inc hcalls),
        (filter_route_calls is_timer_end hcalls);
        try assumption; try (intros []; (reflexivity || discriminate)).
      split; reflexivity.
  - rewrite (finish_runs_zero evs Hn) in Hcalls, Hcnt, Hlen.
    split; [exact Hcnt|]. split.
    + destruct ds; [exact Hh|discriminate Hlen].
    + eexists. split; [exact Hcalls|].
      rewrite !List.filter_app.
      rewrite (filter_route_calls is_counter_inc hcalls),
        (filter_route_calls is_timer_end hcalls);
        try assumption; try (intros []; (reflexivity || discriminate)).
      split; reflexivity.
Qed.

(** C1, amended, at a completed [GET /missing] on a fresh process. *)
Lemma one_counter_and_one_histogram_sample_witness :
  1 <= finish_count completes /\
  let w' := handle_request (logger_fault false) sample_extract sample_fresh sample_fmt_sum
              get_missing completes started in
  let sc := statusCode (res w') in
  let cl := {| cl_method := "GET"; cl_route := "/missing"; cl_status_code := sc |} in
  let hl := {| hl_method := "GET"; hl_route := "/missing"; hl_code := sc |} in
  counter w' = inc cl (counter started) /\
  (exists d, histogram w' = observe hl d (histogram started)) /\
  exists new, calls w' = calls started ++ new /\
              List.filter is_counter_inc new = [CCounterInc cl] /\
              List.filter is_timer_end new = [CTimerEnd hl].
Proof.
  assert (Hn : 1 <= finish_count completes) by (vm_compute; lia).
  split; [exact Hn|].
  destruct (one_counter_and_one_histogram_sample_per_request false sample_extract
              sample_fresh sample_fmt_sum get_missing completes started) as (H & _).
  exact (H Hn).
Defined.

(** C2. However often ['finish'] fires on the response, and whatever
    throws, each of the four completion actions (counter increment,
    histogram observation, status-code tag, span finish) is performed at
    most once for a request; a second firing produces no second set of
    them.  With healthy collaborators each is performed exactly once if
    ['finish'] fires at all.  The middleware has no guard of its own: the
    second ['finish'] fails in the listener the host attached before it,
    and that exception is uncaught. *)
Theorem completion_actions_at_most_once
    (faults : Faults) (extract : Headers -> option SpanContext)
    (fresh : Headers -> string -> bool) (fmt_sum : list N -> string)
    (req : Request) (evs : list (N * ResEvent)) (w : World) :
  let w' := handle_request faults extract fresh fmt_sum req evs w in
  exists new, calls w' = calls w ++ new /\
    count_calls is_counter_inc new <= 1 /\
    count_calls is_timer_end new <= 1 /\
    count_calls is_set_tag new <= 1 /\
    count_calls is_span_finish new <= 1 /\
    (middleware_ok faults -> completion_ok faults ->
       count_calls is_counter_inc new = finish_runs evs /\
       count_calls is_timer_end new = finish_runs evs /\
       count_calls is_set_tag new = finish_runs evs /\
       count_calls is_span_finish new = finish_runs evs /\
       (2 <= finish_count evs -> uncaught w' = true)).
Proof.
  cbv zeta.
  destruct (handle_request_calls_any faults extract fresh fmt_sum req evs w is_counter_inc)
    as (new & Hcalls & H1);
    [intros []; cbn; (discriminate || reflexivity)|reflexivity|].
  destruct (handle_request_calls_any faults extract fresh fmt_sum req evs w is_timer_end)
    as (new2 & Hcalls2 & H2);
    [intros []; cbn; (discriminate || reflexivity)|reflexivity|].
  destruct (handle_request_calls_any faults extract fresh fmt_sum req evs w is_set_tag)
    as (new3 & Hcalls3 & H3);
    [intros []; cbn; (discriminate || reflexivity)|reflexivity|].
  destruct (handle_request_calls_any faults extract fresh fmt_sum req evs w is_span_finish)
    as (new4 & Hcalls4 & H4);
    [intros []; cbn; (discriminate || reflexivity)|reflexivity|].
  rewrite Hcalls in Hcalls2, Hcalls3, Hcalls4.
  apply app_inv_head in Hcalls2, Hcalls3, Hcalls4. subst new2 new3 new4.
  exists new. split; [exact Hcalls|].
  do 4 (split; [assumption|]).
  intros Hmw Hcomp.
  destruct (handle_request_ok faults extract fresh fmt_sum req evs w Hmw Hcomp)
    as (_ & _ & _ & (hcalls & Hcalls' & Hroute) & _).
  cbv zeta in Hcalls'. rewrite Hcalls in Hcalls'.
  apply app_inv_head in Hcalls'. subst new.
  rewrite !count_calls_app, !count_calls_completions.
  rewrite !(count_route_calls _ hcalls) by
    (try assumption; intros []; (reflexivity || discriminate)).
  cbn. do 4 (split; [lia|]).
  intros Hn. apply handle_request_second_finish; assumption.
Qed.

(** C2 at a [GET /] whose response would fire ['finish'] twice. *)
Lemma completion_actions_at_most_once_witness :
  middleware_ok no_faults /\ completion_ok no_faults /\
  2 <= finish_count finishes_twice /\
  let w' := handle_request no_faults sample_extract sample_fresh sample_fmt_sum
              get_root finishes_twice started in
  exists new, calls w' = calls started ++ new /\
    count_calls is_counter_inc new = 1 /\
    count_calls is_timer_end new = 1 /\
    count_calls is_set_tag new = 1 /\
    count_calls is_span_finish new = 1 /\
    uncaught w' = true.
Proof.
  assert (Hn : 2 <= finish_count finishes_twice) by (vm_compute; lia).
  split; [exact no_faults_middleware_ok|]. split; [exact no_faults_completion_ok|].
  split; [exact Hn|].
  destruct (completion_actions_at_most_once no_faults sample_extract sample_fresh
              sample_fmt_sum get_root finishes_twice started)
    as (new & Hcalls & _ & _ & _ & _ & H).
  destruct (H no_faults_middleware_ok no_faults_completion_ok)
    as (H1 & H2 & H3 & H4 & Hu).
  exists new.
  split; [exact Hcalls|]. split; [exact H1|]. split; [exact H2|].
  split; [exact H3|]. split; [exact H4|exact (Hu Hn)].
Defined.

(** C3 fails on the code: the middleware listens to ['finish'] only.
    When the client disconnects before completion the host emits only
    ['close'], and the span opened for the request is never finished. *)
Lemma aborted_request_leaves_span_unfinished :
  let w' := handle_request no_faults sample_extract sample_fresh sample_fmt_sum
              get_root aborts started in
  ~ (exists s, spans w' !! 0 = Some s /\ finished s = 1).
Proof.
  cbv zeta. intros (s & Hs & Hf). vm_compute in Hs.
  injection Hs as <-. discriminate Hf.
Qed.

(** C3, amended.  The span opened for a request is finished exactly once
    on every exit path on which the response completes (a route's answer,
    the 404 of the default responder, the 500 after a handler that
    threw), never more than once, and not at all when the response only
    closes, as after a client disconnect: the span then stays as it was
    opened. *)
Theorem span_finished_once_when_response_finishes
    (b : bool) (extract : Headers -> option SpanContext)
    (fresh : Headers -> string -> bool) (fmt_sum : list N -> string)
    (req : Request) (evs : list (N * ResEvent)) (w : World) :
  let w' := handle_request (logger_fault b) extract fresh fmt_sum req evs w in
  exists s new,
    spans w' = spans w ++ [s] /\ finished s = finish_runs evs /\
    calls w' = calls w ++ new /\
    count_calls is_start_span new = 1 /\
    count_calls is_span_finish new = finish_runs evs /\
    (1 <= finish_count evs -> finished s = 1) /\
    (finish_count evs = 0 -> s = opened_span extract req).
Proof.
  cbv zeta.
  destruct (handle_request_ok (logger_fault b) extract fresh fmt_sum req evs w
              (logger_fault_middleware_ok b) (logger_fault_completion_ok b))
    as (_ & _ & _ & (hcalls & Hcalls & Hroute) & _ & _ & Hsp).
  cbv zeta in Hcalls, Hsp.
  eexists. eexists. split; [exact Hsp|].
  split; [rewrite finished_iter_complete; cbn; lia|].
  split; [exact Hcalls|].
  rewrite !count_calls_app, !count_calls_completions.
  rewrite !(count_route_calls _ hcalls) by
    (try assumption; intros []; (reflexivity || discriminate)).
  split; [cbn; lia|]. split; [cbn; lia|]. split.
  - intros Hn. rewrite finished_iter_complete, (finish_runs_pos evs Hn). reflexivity.
  - intros Hn. rewrite (finish_runs_zero evs Hn). reflexivity.
Qed.

(** C4 fails on the code: the program has no [try]/[catch].  When
    [tracer.extract] throws, the exception leaves the middleware, the
    framework answers 500 in place of the route, and nothing is logged at
    error level. *)
Lemma tracer_throw_reaches_the_client :
  let w' := handle_request tracer_down sample_extract sample_fresh sample_fmt_sum get_root
              completes started in
  ~ ((exists msg, In (Error, msg) (log w')) /\
     statusCode (res w') = 200 /\ body (res w') = Text "Hello World!").
Proof.
  cbv zeta. intros (_ & Hst & _). vm_compute in Hst. discriminate Hst.
Qed.

(** C4, amended.  A failure that the tracer handles itself and reports
    through the logger given to [initTracer] is written by the logger of
    the program at the level the tracer chose, an error at error level,
    and leaves the response alone.  An exception thrown by a telemetry
    call is caught nowhere in the program.  With a healthy logger:
    - if the tracer or the timer throws while the middleware runs
      ([extract], [startSpan], [startTimer]), the framework answers 500
      with its own page, no route runs, the program logs nothing and no
      sample is recorded;
    - if the counter, the histogram or the span throws in the completion
      listener, the client still gets the answer of the routes and the
      program logs nothing at error level, but the exception is uncaught;
    - if none of them throws, the client gets the answer of the routes
      and the program logs nothing at error level. *)
Theorem telemetry_throws_are_not_caught
    (faults : Faults) (extract : Headers -> option SpanContext)
    (fresh : Headers -> string -> bool) (fmt_sum : list N -> string)
    (req : Request) (evs : list (N * ResEvent)) (w : World) :
  faults OpLoggerInfo = false ->
  let w' := handle_request faults extract fresh fmt_sum req evs w in
  (faults OpLoggerError = false ->
   forall (lines : list (Level * string)) (w0 : World),
   exists w1,
     tracer_writes faults lines w0 = (Ok tt, w1) /\
     log w1 = log w0 ++ lines /\ res w1 = res w0 /\ uncaught w1 = uncaught w0) /\
  (middleware_throws faults = true ->
     statusCode (res w') = 500 /\
     body (res w') = wire_body req (FrameworkPage 500) /\
     log w' = log w /\ counter w' = counter w /\ histogram w' = histogram w /\
     exists new, calls w' = calls w ++ new /\
                 count_calls is_next new = 0 /\ count_calls is_route_call new = 0) /\
  (middleware_throws faults = false -> completion_throws faults = true ->
   1 <= finish_count evs ->
     statusCode (res w') = answer_status fresh req /\
     uncaught w' = true /\
     exists entries, log w' = log w ++ entries /\ forallb is_info entries = true) /\
  (middleware_throws faults = false -> completion_throws faults = false ->
     statusCode (res w') = answer_status fresh req /\
     (finish_count evs <= 1 -> uncaught w' = uncaught w) /\
     exists entries, log w' = log w ++ entries /\ forallb is_info entries = true).
Proof.
  intros Hlogger. cbv zeta. unfold handle_request.
  split; [|split; [|split]].
  - intros Herr lines w0.
    destruct (tracer_writes_ok faults lines w0 Hlogger Herr)
      as (w1 & Hw & Hlog & Hr & _ & _ & Hu).
    exists w1. repeat split; assumption.
  - intros Hthrow.
    destruct (app_handle_throws faults extract fresh fmt_sum req (set_attached true w) Hthrow)
      as (Hst & Hbody & Hl & Hlog & Hcnt & Hh & _ & _ & new & Hcalls & Hnext & Hroute).
    cbv zeta in Hst, Hbody, Hl, Hlog, Hcnt, Hh, Hcalls.
    destruct (deliver_no_listener faults evs _ Hl)
      as (Hr' & Hlog' & Hcalls' & Hcnt' & Hh' & _ & _).
    rewrite Hr', Hlog', Hcalls', Hcnt', Hh'.
    repeat split; try assumption.
    exists new. repeat split; assumption.
  - intros Hmw Hthrow Hn.
    pose proof (middleware_throws_false faults Hmw) as Hok.
    destruct (app_handle_ok faults extract fresh fmt_sum req (set_attached true w) Hok)
      as (_ & Hl & _).
    destruct (answered_status faults extract fresh fmt_sum Hok Hlogger req
                (set_attached true w)) as (Hst & entries & Hlog & Hinfo).
    cbv zeta in Hl, Hst, Hlog.
    destruct (deliver_throws faults evs _ _ Hthrow Hl Hn) as (Hr' & Hlog' & Hu').
    rewrite Hr', Hlog', Hu'.
    repeat split; try assumption.
    exists entries. split; assumption.
  - intros Hmw Hcomp.
    pose proof (middleware_throws_false faults Hmw) as Hok.
    pose proof (completion_throws_false faults Hcomp) as Hcok.
    destruct (handle_request_ok faults extract fresh fmt_sum req evs w Hok Hcok)
      as (Hr' & Hlog' & Hu' & _).
    destruct (answered_status faults extract fresh fmt_sum Hok Hlogger req
                (set_attached true w)) as (Hst & entries & Hlog & Hinfo).
    cbv zeta in Hr', Hlog', Hu', Hst, Hlog. unfold handle_request in Hr', Hlog', Hu'.
    rewrite Hr', Hlog'.
    split; [exact Hst|]. split; [exact Hu'|].
    exists entries. split; assumption.
Qed.

(** C4, amended, at a completed [GET /] whose counter increment throws,
    and at an error the tracer reports through its logger. *)
Lemma telemetry_throws_are_not_caught_witness :
  counter_down OpLoggerInfo = false /\
  counter_down OpLoggerError = false /\
  middleware_throws counter_down = false /\
  completion_throws counter_down = true /\
  1 <= finish_count completes /\
  let w' := handle_request counter_down sample_extract sample_fresh sample_fmt_sum get_root
              completes started in
  (statusCode (res w') = answer_status sample_fresh get_root /\
   uncaught w' = true /\
   exists entries, log w' = log started ++ entries /\ forallb is_info entries = true) /\
  exists w1,
    tracer_writes counter_down [(Error, "Failed to flush spans in reporter")] w' =
      (Ok tt, w1) /\
    log w1 = log w' ++ [(Error, "Failed to flush spans in reporter")] /\
    res w1 = res w' /\ uncaught w1 = uncaught w'.
Proof.
  split; [reflexivity|]. split; [reflexivity|]. split; [reflexivity|].
  split; [reflexivity|]. split; [vm_compute; lia|].
  destruct (telemetry_throws_are_not_caught counter_down sample_extract sample_fresh
              sample_fmt_sum get_root completes started eq_refl) as (Hw & _ & H & _).
  split.
  - apply H; [reflexivity|reflexivity|vm_compute; lia].
  - apply (Hw eq_refl).
Defined.

(** C5. Each run of the completion listener makes its four calls in the
    order of the program: the counter increment, the histogram
    observation, the status-code tag, the span finish.  The calls of a
    request are those of the middleware, those of the route, then this
    block, once if the response finishes. *)
Theorem completion_actions_in_program_order
    (b : bool) (extract : Headers -> option SpanContext)
    (fresh : Headers -> string -> bool) (fmt_sum : list N -> string)
    (req : Request) (evs : list (N * ResEvent)) (w : World) :
  let w' := handle_request (logger_fault b) extract fresh fmt_sum req evs w in
  let sc := statusCode (res w') in
  let span := length (spans w) in
  exists hcalls,
    forallb is_route_call hcalls = true /\
    calls w' = calls w ++ middleware_calls extract req ++ hcalls ++
      concat (replicate (finish_runs evs)
        [CCounterInc {| cl_method := method req; cl_route := path req;
                        cl_status_code := sc |};
         CTimerEnd {| hl_method := method req; hl_route := path req; hl_code := sc |};
         CSetTag span HTTP_STATUS_CODE (TagNum sc);
         CSpanFinish span]).
Proof.
  cbv zeta.
  destruct (handle_request_ok (logger_fault b) extract fresh fmt_sum req evs w
              (logger_fault_middleware_ok b) (logger_fault_completion_ok b))
    as (Hr & _ & _ & (hcalls & Hcalls & Hroute) & _).
  cbv zeta in Hr, Hcalls. rewrite <- Hr in Hcalls.
  exists hcalls. split; [exact Hroute|]. exact Hcalls.
Qed.

(** C6. When the headers of a request carry no valid trace context (the
    tracer's [extract] yields none), extraction does not throw and does
    not fail the request: the middleware starts the span of the request
    without a parent (a root span), and, unless [startSpan] or
    [startTimer] throws, it passes the request on to the routes, whose
    answer is the response. *)
Theorem no_trace_context_starts_root_span
    (faults : Faults) (extract : Headers -> option SpanContext)
    (fresh : Headers -> string -> bool) (fmt_sum : list N -> string)
    (req : Request) (w : World) :
  extract (headers req) = None ->
  let tracer := never_fatal faults in
  let w0 := set_res (fun _ => fresh_response) w in
  let r := app_handle tracer extract fresh fmt_sum req w0 in
  tracer_extract tracer extract FORMAT_HTTP_HEADERS (headers req) w0 =
    (Ok None, record_call (CExtract FORMAT_HTTP_HEADERS (headers req)) w0) /\
  (faults OpStartSpan = false ->
     spans r.2 = spans w ++
       [{| operationName := path req; childOf := None;
           tags := [(SPAN_KIND, TagStr SPAN_KIND_RPC_SERVER)]; finished := 0 |}]) /\
  (faults OpStartSpan = false -> faults OpStartTimer = false ->
     let direct := (router tracer fresh fmt_sum req w0).2 in
     statusCode (res r.2) = statusCode (res direct) /\
     res_headers (res r.2) = res_headers (res direct) /\
     body (res r.2) = body (res direct) /\
     exists hcalls,
       forallb is_route_call hcalls = true /\
       calls r.2 = calls w ++
         [CExtract FORMAT_HTTP_HEADERS (headers req);
          CStartSpan (path req) None [(SPAN_KIND, TagStr SPAN_KIND_RPC_SERVER)];
          CStartTimer; CResOn "finish"; CNext] ++ hcalls).
Proof.
  intros Hnone. cbv zeta. split; [|split].
  - unfold tracer_extract, call, bind, modify, ret. cbn. rewrite Hnone. reflexivity.
  - intros Hs. run_program. cbn. rewrite Hs, Hnone. cbn.
    destruct (faults OpStartTimer); cbn; [reflexivity|].
    route_cases; reflexivity.
  - intros Hs Ht.
    assert (Hok : middleware_ok (never_fatal faults)) by (repeat split; assumption).
    destruct (app_handle_ok (never_fatal faults) extract fresh fmt_sum req w Hok)
      as (_ & _ & _ & _ & _ & _ & _ & _ & _ & hcalls & Hcalls & Hroute).
    cbv zeta in Hcalls. unfold middleware_calls in Hcalls. rewrite Hnone in Hcalls.
    split; [|split; [|split]].
    4: { exists hcalls. split; [exact Hroute|exact Hcalls]. }
    all: run_program; cbn; rewrite Hs, Ht; cbn; route_cases; reflexivity.
Qed.

(** C6 at a [GET /] without trace headers, with a throwing counter. *)
Lemma no_trace_context_starts_root_span_witness :
  sample_extract (headers get_root) = None /\
  counter_down OpStartSpan = false /\
  let tracer := never_fatal counter_down in
  let w0 := set_res (fun _ => fresh_response) started in
  let r := app_handle tracer sample_extract sample_fresh sample_fmt_sum get_root w0 in
  tracer_extract tracer sample_extract FORMAT_HTTP_HEADERS (headers get_root) w0 =
    (Ok None, record_call (CExtract FORMAT_HTTP_HEADERS (headers get_root)) w0) /\
  spans r.2 = spans started ++
    [{| operationName := "/"; childOf := None;
        tags := [(SPAN_KIND, TagStr SPAN_KIND_RPC_SERVER)]; finished := 0 |}].
Proof.
  split; [reflexivity|]. split; [reflexivity|].
  destruct (no_trace_context_starts_root_span counter_down sample_extract sample_fresh
              sample_fmt_sum get_root started eq_refl) as (He & Hs & _).
  split; [exact He|]. exact (Hs eq_refl).
Defined.

(** C7. The span the middleware opens for a request is named after the
    request path, carries the tag [span.kind = server], and has as parent
    the context extracted from the headers (so it is a child of that
    context when there is one); when the response completes, the span
    has been tagged with [http.status_code] equal to the final status of
    the response, and finished. *)
Theorem span_named_tagged_and_parented
    (b : bool) (extract : Headers -> option SpanContext)
    (fresh : Headers -> string -> bool) (fmt_sum : list N -> string)
    (req : Request) (evs : list (N * ResEvent)) (w : World) :
  finish_count evs = 1 ->
  let w' := handle_request (logger_fault b) extract fresh fmt_sum req evs w in
  spans w' = spans w ++
    [{| operationName := path req;
        childOf := extract (headers req);
        tags := [(SPAN_KIND, TagStr SPAN_KIND_RPC_SERVER);
                 (HTTP_STATUS_CODE, TagNum (statusCode (res w')))];
        finished := 1 |}] /\
  (forall ctx, extract (headers req) = Some ctx ->
     exists s, spans w' !! length (spans w) = Some s /\ childOf s = Some ctx).
Proof.
  intros Hn. cbv zeta.
  destruct (handle_request_ok (logger_fault b) extract fresh fmt_sum req evs w
              (logger_fault_middleware_ok b) (logger_fault_completion_ok b))
    as (Hr & _ & _ & _ & _ & _ & Hsp).
  cbv zeta in Hr, Hsp. rewrite <- Hr in Hsp.
  rewrite finish_runs_pos in Hsp by lia.
  rewrite Hsp. split; [reflexivity|].
  intros ctx Hctx. eexists. split.
  - rewrite lookup_app_r by lia. rewrite Nat.sub_diag. reflexivity.
  - cbn. exact Hctx.
Qed.

(** C7 at a completed [GET /] that carries a trace header. *)
Lemma span_named_tagged_and_parented_witness :
  finish_count completes = 1 /\
  let w' := handle_request (logger_fault false) sample_extract sample_fresh sample_fmt_sum
              get_root_traced completes started in
  spans w' = spans started ++
    [{| operationName := "/";
        childOf := sample_extract (headers get_root_traced);
        tags := [(SPAN_KIND, TagStr SPAN_KIND_RPC_SERVER);
                 (HTTP_STATUS_CODE, TagNum (statusCode (res w')))];
        finished := 1 |}] /\
  (forall ctx, sample_extract (headers get_root_traced) = Some ctx ->
     exists s, spans w' !! length (spans started) = Some s /\ childOf s = Some ctx).
Proof.
  split; [reflexivity|].
  apply (span_named_tagged_and_parented false sample_extract sample_fresh sample_fmt_sum
           get_root_traced completes started).
  reflexivity.
Defined.

(** C8 fails on the code as stated, at two inputs.  A conditional
    [GET /] whose validator matches ([If-None-Match: *]) is answered by
    [res.send] with status 304 and no body, and is counted under 304.  And
    a [GET /] whose client disconnects before the response completes is
    not counted at all, since the counter is incremented by the listener
    of ['finish']. *)
Lemma conditional_or_aborted_get_root_is_not_counted_as_200 :
  (let w' := handle_request no_faults sample_extract sample_fresh sample_fmt_sum
               get_root_if_none_match completes started in
   ~ (statusCode (res w') = 200 /\ body (res w') = Text "Hello World!")) /\
  (let w' := handle_request no_faults sample_extract sample_fresh sample_fmt_sum
               get_root aborts started in
   let series := {| cl_method := "GET"; cl_route := "/"; cl_status_code := 200 |} in
   counter_value (counter w') series <> S (counter_value (counter started) series)).
Proof.
  split; cbv zeta.
  - intros (Hst & _). vm_compute in Hst. discriminate Hst.
  - intros H. vm_compute in H. discriminate H.
Qed.

(** C8, amended.  A [GET] request to [/] logs the informational message
    of the handler and is answered with status 200 and the body
    [Hello World!], unless the request is conditional and fresh, in which
    case the answer is 304 without a body.  When its response completes,
    the counter series [{method=GET, route=/, status_code}] of that
    status has grown by exactly 1 (and not at all if the response never
    finishes), all other series being unchanged. *)
Theorem get_root_says_hello_and_is_counted
    (extract : Headers -> option SpanContext) (fresh : Headers -> string -> bool)
    (fmt_sum : list N -> string)
    (hs : Headers) (evs : list (N * ResEvent)) (w : World) :
  let req := {| method := "GET"; path := "/"; headers := hs |} in
  let w' := handle_request no_faults extract fresh fmt_sum req evs w in
  let sc := if fresh hs "Hello World!" then 304 else 200 in
  let series := {| cl_method := "GET"; cl_route := "/"; cl_status_code := sc |} in
  (exists later, log w' = log w ++ (Info, "Hello World endpoint was called") :: later) /\
  statusCode (res w') = sc /\
  body (res w') = (if fresh hs "Hello World!" then NoBody else Text "Hello World!") /\
  counter_value (counter w') series = finish_runs evs + counter_value (counter w) series /\
  (1 <= finish_count evs ->
     counter_value (counter w') series = S (counter_value (counter w) series)) /\
  (forall other, other <> series ->
     counter_value (counter w') other = counter_value (counter w) other).
Proof.
  cbv zeta.
  destruct (handle_request_ok no_faults extract fresh fmt_sum
              {| method := "GET"; path := "/"; headers := hs |} evs w
              no_faults_middleware_ok no_faults_completion_ok)
    as (Hr & Hlog & _ & _ & Hcnt & _).
  destruct (hello_answer no_faults extract fresh fmt_sum no_faults_middleware_ok eq_refl hs
              (set_attached true w)) as (Hans & Hlog1 & _).
  cbv zeta in Hr, Hlog, Hcnt, Hans, Hlog1.
  cbn [method path] in Hcnt.
  assert (Hst : statusCode (res (app_handle no_faults extract fresh fmt_sum
                  {| method := "GET"; path := "/"; headers := hs |}
                  (set_res (fun _ => fresh_response) (set_attached true w))).2) =
                if fresh hs "Hello World!" then 304 else 200).
  { destruct (fresh hs "Hello World!"); apply Hans. }
  rewrite Hst in Hcnt. rewrite Hr, Hlog, Hcnt.
  split; [exists []; exact Hlog1|]. split; [exact Hst|].
  split; [destruct (fresh hs "Hello World!"); apply Hans|].
  rewrite !counter_value_iter_inc.
  split; [destruct (decide _) as [_|Hne]; [reflexivity|contradiction]|].
  split.
  - intros Hn. rewrite (finish_runs_pos evs Hn).
    destruct (decide _) as [_|Hne]; [reflexivity|contradiction].
  - intros other Hne. rewrite counter_value_iter_inc.
    destruct (decide _) as [Heq|_]; [symmetry in Heq; contradiction|reflexivity].
Qed.

(** C8, amended, at a completed [GET /] on a fresh process. *)
Lemma get_root_says_hello_and_is_counted_witness :
  1 <= finish_count completes /\
  let w' := handle_request no_faults sample_extract sample_fresh sample_fmt_sum get_root
              completes started in
  let series := {| cl_method := "GET"; cl_route := "/"; cl_status_code := 200 |} in
  (exists later, log w' = log started ++ (Info, "Hello World endpoint was called") :: later) /\
  statusCode (res w') = 200 /\
  body (res w') = Text "Hello World!" /\
  counter_value (counter w') series = S (counter_value (counter started) series).
Proof.
  assert (Hn : 1 <= finish_count completes) by (vm_compute; lia).
  split; [exact Hn|].
  destruct (get_root_says_hello_and_is_counted sample_extract sample_fresh sample_fmt_sum ∅
              completes started) as (Hlog & Hst & Hbody & _ & Hcnt & _).
  split; [exact Hlog|]. split; [exact Hst|]. split; [exact Hbody|]. exact (Hcnt Hn).
Defined.

(** C9 fails on the code as stated: the counter has labels, so it has no
    series until a request has completed, and the listener of the scrape
    itself runs only after the text was rendered.  The first request to a
    fresh process being [GET /metrics], its body has the [# HELP] and
    [# TYPE] lines of the counter but no line that begins with
    [http_requests_total]. *)
Lemma first_scrape_has_no_counter_line :
  let w' := handle_request no_faults sample_extract sample_fresh sample_fmt_sum get_metrics
              completes started in
  ~ (exists text, body (res w') = Text text /\
                  has_line_beginning "http_requests_total" text = true).
Proof.
  cbv zeta. intros (text & Hbody & Hline).
  vm_compute in Hbody. injection Hbody as <-.
  vm_compute in Hline. discriminate Hline.
Qed.

(** C9, amended.  A [GET] request to [/metrics] is answered with status
    200, the content type declared by the registry, and as body the
    registry text as it stands when the handler runs (before the
    request's own completion is recorded); that text contains a line
    beginning with [http_requests_total] whenever the counter already
    holds a series, that is, once an earlier request has completed. *)
Theorem get_metrics_renders_registry
    (extract : Headers -> option SpanContext) (fresh : Headers -> string -> bool)
    (fmt_sum : list N -> string)
    (hs : Headers) (evs : list (N * ResEvent)) (w : World) :
  let req := {| method := "GET"; path := "/metrics"; headers := hs |} in
  let w' := handle_request no_faults extract fresh fmt_sum req evs w in
  statusCode (res w') = 200 /\
  res_headers (res w') !! "content-type" = Some register_contentType /\
  body (res w') = Text (metrics_text fmt_sum w) /\
  (counter w <> ∅ ->
   has_line_beginning "http_requests_total" (metrics_text fmt_sum w) = true).
Proof.
  cbv zeta.
  destruct (handle_request_ok no_faults extract fresh fmt_sum
              {| method := "GET"; path := "/metrics"; headers := hs |} evs w
              no_faults_middleware_ok no_faults_completion_ok)
    as (Hr & _).
  destruct (metrics_answer no_faults extract fresh fmt_sum no_faults_middleware_ok hs
              (set_attached true w)) as (Hst & Hct & Hbody & _).
  cbv zeta in Hr, Hst, Hct, Hbody. rewrite Hr.
  split; [exact Hst|]. split; [exact Hct|]. split; [exact Hbody|].
  apply metrics_text_counter_line.
Qed.

(** C9, amended, at a scrape that follows one completed [GET /]. *)
Lemma get_metrics_renders_registry_witness :
  counter served_one <> ∅ /\
  let w' := handle_request no_faults sample_extract sample_fresh sample_fmt_sum get_metrics
              completes served_one in
  statusCode (res w') = 200 /\
  res_headers (res w') !! "content-type" = Some register_contentType /\
  body (res w') = Text (metrics_text sample_fmt_sum served_one) /\
  has_line_beginning "http_requests_total" (metrics_text sample_fmt_sum served_one) = true.
Proof.
  assert (Hne : counter served_one <> ∅).
  { intros H. vm_compute in H. discriminate H. }
  split; [exact Hne|].
  destruct (get_metrics_renders_registry sample_extract sample_fresh sample_fmt_sum ∅ completes
              served_one) as (Hst & Hct & Hbody & Hline).
  split; [exact Hst|]. split; [exact Hct|]. split; [exact Hbody|].
  exact (Hline Hne).
Defined.

(** C10. The middleware runs before route matching, so a request to a
    path that no route has is instrumented like any other: the default
    responder answers 404, and once the request has been answered (its
    response has finished) exactly one counter sample, one histogram
    sample and one span have been produced,
    all carrying the request path as it came ([route] label, span name),
    not a route pattern.  Every path of the form [/0...] is the path of no
    route, so the [route] label takes unboundedly many values. *)
Theorem unregistered_path_is_instrumented
    (extract : Headers -> option SpanContext) (fresh : Headers -> string -> bool)
    (fmt_sum : list N -> string)
    (req : Request) (evs : list (N * ResEvent)) (w : World) :
  routed_path (path req) = false ->
  finish_count evs = 1 ->
  let w' := handle_request no_faults extract fresh fmt_sum req evs w in
  let cl := {| cl_method := method req; cl_route := path req; cl_status_code := 404 |} in
  let hl := {| hl_method := method req; hl_route := path req; hl_code := 404 |} in
  statusCode (res w') = 404 /\
  body (res w') = wire_body req (FrameworkPage 404) /\
  counter w' = inc cl (counter w) /\
  (exists d, histogram w' = observe hl d (histogram w)) /\
  spans w' = spans w ++
    [{| operationName := path req; childOf := extract (headers req);
        tags := [(SPAN_KIND, TagStr SPAN_KIND_RPC_SERVER);
                 (HTTP_STATUS_CODE, TagNum 404)];
        finished := 1 |}] /\
  (exists new, calls w' = calls w ++ new /\
     List.filter is_counter_inc new = [CCounterInc cl] /\
     List.filter is_timer_end new = [CTimerEnd hl] /\
     List.filter is_start_span new =
       [CStartSpan (path req) (extract (headers req))
          [(SPAN_KIND, TagStr SPAN_KIND_RPC_SERVER)]]) /\
  (forall suffix : string, routed_path (String "/" (String "0" suffix)) = false).
Proof.
  intros Hreg Hn. cbv zeta.
  destruct (handle_request_ok no_faults extract fresh fmt_sum req evs w
              no_faults_middleware_ok no_faults_completion_ok)
    as (Hr & _ & _ & (hcalls & Hcalls & Hroute) & Hcnt & (ds & Hlen & Hh) & Hsp).
  destruct (missing_answer no_faults extract fresh fmt_sum no_faults_middleware_ok req
              (set_attached true w) Hreg) as (Hst & Hbody & _).
  cbv zeta in Hr, Hcalls, Hcnt, Hh, Hsp, Hst, Hbody.
  rewrite Hst in Hcalls, Hcnt, Hh, Hsp.
  rewrite finish_runs_pos in Hcalls, Hcnt, Hlen, Hsp by lia.
  rewrite Hr.
  split; [exact Hst|]. split; [exact Hbody|]. split; [exact Hcnt|].
  split.
  { destruct ds as [|d [|? ?]]; try discriminate Hlen. exists d. exact Hh. }
  split; [exact Hsp|].
  split.
  { eexists. split; [exact Hcalls|].
    rewrite !List.filter_app.
    rewrite (filter_route_calls is_counter_inc hcalls),
      (filter_route_calls is_timer_end hcalls),
      (filter_route_calls is_start_span hcalls);
      try assumption; try (intros []; (reflexivity || discriminate)).
    repeat split; reflexivity. }
  intros suffix. unfold routed_path, route_match.
  cbn [lower]. change (to_lower "/") with "/"%char. change (to_lower "0") with "0"%char.
  cbn [strip_slash].
  destruct (lower suffix) as [|c r]; reflexivity.
Qed.

(** C10 at a completed [GET /missing] on a fresh process. *)
Lemma unregistered_path_is_instrumented_witness :
  routed_path (path get_missing) = false /\
  finish_count completes = 1 /\
  let w' := handle_request no_faults sample_extract sample_fresh sample_fmt_sum get_missing
              completes started in
  let cl := {| cl_method := "GET"; cl_route := "/missing"; cl_status_code := 404 |} in
  let hl := {| hl_method := "GET"; hl_route := "/missing"; hl_code := 404 |} in
  statusCode (res w') = 404 /\
  counter w' = inc cl (counter started) /\
  (exists d, histogram w' = observe hl d (histogram started)).
Proof.
  split; [reflexivity|]. split; [reflexivity|].
  destruct (unregistered_path_is_instrumented sample_extract sample_fresh sample_fmt_sum
              get_missing completes started eq_refl eq_refl)
    as (Hst & _ & Hcnt & Hh & _).
  split; [exact Hst|]. split; [exact Hcnt|]. exact Hh.
Defined.

(** ** Further properties of the program *)

(** *** What a step of the program keeps *)

Lemma grows_refl (i : nat) (w : World) : grows i w w.
Proof. repeat split; intros; reflexivity. Qed.

Lemma grows_trans (i : nat) (w1 w2 w3 : World) :
  grows i w1 w2 -> grows i w2 w3 -> grows i w1 w3.
Proof.
  intros (Hc & Hh & Hl & Hk & Hs) (Hc' & Hh' & Hl' & Hk' & Hs').
  split; [intros k; etransitivity; [apply Hc|apply Hc']|].
  split; [intros k; etransitivity; [apply Hh|apply Hh']|].
  split; [etransitivity; eassumption|].
  split; [etransitivity; eassumption|].
  congruence.
Qed.

Lemma grows_record_call (i : nat) (w w1 : World) (c : Call) :
  grows i w w1 -> grows i w (record_call c w1).
Proof.
  intros (Hc & Hh & Hl & Hk & Hs). repeat split; try assumption.
  cbn. etransitivity; [exact Hk|]. apply prefix_app_r. reflexivity.
Qed.

Lemma grows_set_res (i : nat) (w w1 : World) (f : Response -> Response) :
  grows i w w1 -> grows i w (set_res f w1).
Proof. intros H. exact H. Qed.

Lemma grows_set_clock (i : nat) (w w1 : World) (f : N -> N) :
  grows i w w1 -> grows i w (set_clock f w1).
Proof. intros H. exact H. Qed.

Lemma grows_set_uncaught (i : nat) (w w1 : World) (b : bool) :
  grows i w w1 -> grows i w (set_uncaught b w1).
Proof. intros H. exact H. Qed.

Lemma grows_set_attached (i : nat) (w w1 : World) (b : bool) :
  grows i w w1 -> grows i w (set_attached b w1).
Proof. intros H. exact H. Qed.

Lemma grows_set_log (i : nat) (w w1 : World) (e : Level * string) :
  grows i w w1 -> grows i w (set_log (fun l => l ++ [e]) w1).
Proof.
  intros (Hc & Hh & Hl & Hk & Hs). repeat split; try assumption.
  cbn. etransitivity; [exact Hl|]. apply prefix_app_r. reflexivity.
Qed.

Lemma grows_set_counter (i : nat) (w w1 : World) (l : CounterLabels) :
  grows i w w1 -> grows i w (set_counter (inc l) w1).
Proof.
  intros (Hc & Hh & Hl & Hk & Hs). repeat split; try assumption.
  intros k. cbn. rewrite counter_value_inc. specialize (Hc k).
  destruct (decide (l = k)); lia.
Qed.

Lemma grows_set_histogram (i : nat) (w w1 : World) (l : HistLabels) (d : N) :
  grows i w w1 -> grows i w (set_histogram (observe l d) w1).
Proof.
  intros (Hc & Hh & Hl & Hk & Hs). repeat split; try assumption.
  intros k. cbn. rewrite hist_samples_observe. specialize (Hh k).
  destruct (decide (l = k)); [|exact Hh].
  etransitivity; [exact Hh|]. apply prefix_app_r. reflexivity.
Qed.

Lemma grows_open_span (i : nat) (w w1 : World) (s : Span) :
  i <= length (spans w1) ->
  grows i w w1 -> grows i w (set_spans (fun ss => ss ++ [s]) w1).
Proof.
  intros Hi (Hc & Hh & Hl & Hk & Hs). repeat split; try assumption.
  cbn. rewrite take_app_le by exact Hi. exact Hs.
Qed.

Lemma grows_alter_span (i : nat) (w w1 : World) (f : Span -> Span) :
  grows i w w1 -> grows i w (set_spans (alter f i) w1).
Proof.
  intros (Hc & Hh & Hl & Hk & Hs). repeat split; try assumption.
  cbn. rewrite <- Hs. apply list_eq. intros j.
  destruct (decide (j < i)) as [Hlt|Hge].
  - rewrite !lookup_take_lt by exact Hlt. apply list_lookup_alter_ne. lia.
  - rewrite !lookup_take_ge by lia. reflexivity.
Qed.

Ltac grows_steps :=
  repeat
    lazymatch goal with
    | |- grows _ ?w ?w => apply grows_refl
    | |- grows _ _ (record_call _ _) => apply grows_record_call
    | |- grows _ _ (set_res _ _) => apply grows_set_res
    | |- grows _ _ (set_clock _ _) => apply grows_set_clock
    | |- grows _ _ (set_uncaught _ _) => apply grows_set_uncaught
    | |- grows _ _ (set_attached _ _) => apply grows_set_attached
    | |- grows _ _ (set_log _ _) => apply grows_set_log
    | |- grows _ _ (set_counter _ _) => apply grows_set_counter
    | |- grows _ _ (set_histogram _ _) => apply grows_set_histogram
    | |- grows _ _ (set_spans (alter _ _) _) => apply grows_alter_span
    | |- grows _ _ (set_spans _ _) => apply grows_open_span; [cbn; lia|]
    end.

Section AnyFaults.

Variable faults : Faults.
Variable extract : Headers -> option SpanContext.
Variable fresh : Headers -> string -> bool.
Variable fmt_sum : list N -> string.

(** Whatever throws, the middleware and the routes leave the registry
    as it is, register at most the listener of the request, and keep
    what was recorded. *)
Lemma app_handle_any (req : Request) (w : World) :
  let r := app_handle faults extract fresh fmt_sum req
             (set_res (fun _ => fresh_response) w) in
  counter r.2 = counter w /\ histogram r.2 = histogram w /\
  uncaught r.2 = uncaught w /\ attached r.2 = attached w /\
  (on_finish_listeners (res r.2) = [] \/
   on_finish_listeners (res r.2) = [listener_of req w]) /\
  grows (length (spans w)) w r.2.
Proof.
  cbv zeta. run_program. cbn.
  destruct (faults OpExtract); cbn.
  { do 4 (split; [reflexivity|]). split; [left; reflexivity|grows_steps]. }
  destruct (faults OpStartSpan); cbn.
  { do 4 (split; [reflexivity|]). split; [left; reflexivity|grows_steps]. }
  destruct (faults OpStartTimer); cbn.
  { do 4 (split; [reflexivity|]). split; [left; reflexivity|grows_steps]. }
  route_cases;
    (do 4 (split; [reflexivity|]); split; [right; reflexivity|grows_steps]).
Qed.

(** One ['finish'], whatever throws in its listeners. *)
Lemma emit_finish_any (w : World) (l : FinishListener) :
  on_finish_listeners (res w) = [l] ->
  let r := emit faults Finish w in
  res r.2 = res w /\ uncaught r.2 = uncaught w /\ attached r.2 = false /\
  grows (cap_span l) w r.2.
Proof.
  intros Hl. cbv zeta. unfold emit, resOnFinish, bind, gets.
  destruct (attached w) eqn:Ha; cbn [snd];
    [|do 2 (split; [reflexivity|]); split; [exact Ha|apply grows_refl]].
  cbn [set_attached res]. rewrite Hl. cbn [run_listeners].
  unfold on_finish, httpRequestCounter_inc, timer_end, span_setTag, span_finish,
    call, bind, modify, gets, ret. cbn.
  destruct (faults OpCounterInc); cbn;
    [do 3 (split; [reflexivity|]); grows_steps|].
  destruct (faults OpTimerEnd); cbn;
    [do 3 (split; [reflexivity|]); grows_steps|].
  destruct (faults OpSetTag); cbn;
    [do 3 (split; [reflexivity|]); grows_steps|].
  destruct (faults OpSpanFinish); cbn;
    (do 3 (split; [reflexivity|]); grows_steps).
Qed.

Lemma deliver_any (evs : list (N * ResEvent)) (w : World) (l : FinishListener) :
  on_finish_listeners (res w) = [] \/ on_finish_listeners (res w) = [l] ->
  res (deliver faults evs w) = res w /\
  grows (cap_span l) w (deliver faults evs w).
Proof.
  intros [Hnone|Hl].
  - destruct (deliver_no_listener faults evs w Hnone)
      as (Hr & Hlog & Hcalls & Hcnt & Hh & Hsp & _).
    split; [exact Hr|]. unfold grows. rewrite Hlog, Hcalls, Hcnt, Hh, Hsp.
    repeat split; intros; reflexivity.
  - revert w Hl. induction evs as [|[d ev] evs IH]; intros w Hl.
    + split; [reflexivity|apply grows_refl].
    + cbn [deliver fst snd]. destruct ev.
      * destruct (emit_finish_any (set_clock (N.add d) w) l Hl) as (Hr & _ & _ & Hg).
        cbv zeta in Hr, Hg.
        destruct (emit faults Finish (set_clock (N.add d) w)) as [[u|op] w2];
          cbn [snd] in Hr, Hg.
        -- assert (Hl2 : on_finish_listeners (res w2) = [l]) by (rewrite Hr; exact Hl).
           destruct (IH w2 Hl2) as (Hr' & Hg').
           split; [rewrite Hr', Hr; reflexivity|].
           eapply grows_trans; [exact Hg|exact Hg'].
        -- split; [exact Hr|]. apply grows_set_uncaught. exact Hg.
      * cbn [emit ret]. destruct (IH (set_clock (N.add d) w) Hl) as (Hr' & Hg').
        split; [exact Hr'|]. exact Hg'.
Qed.

End AnyFaults.

Lemma handle_request_keeps
    (faults : Faults) (extract : Headers -> option SpanContext)
    (fresh : Headers -> string -> bool) (fmt_sum : list N -> string)
    (req : Request) (evs : list (N * ResEvent)) (w : World) :
  let w' := handle_request faults extract fresh fmt_sum req evs w in
  (forall k, counter_value (counter w) k <= counter_value (counter w') k) /\
  (forall k, hist_samples (histogram w) k `prefix_of` hist_samples (histogram w') k) /\
  log w `prefix_of` log w' /\
  calls w `prefix_of` calls w' /\
  spans w `prefix_of` spans w'.
Proof.
  cbv zeta. unfold handle_request.
  destruct (app_handle_any faults extract fresh fmt_sum req (set_attached true w))
    as (_ & _ & _ & _ & Hl & Hg).
  cbv zeta in Hl, Hg.
  destruct (deliver_any faults evs _ (listener_of req (set_attached true w)) Hl)
    as (_ & Hg').
  cbn [listener_of cap_span set_attached spans] in Hg, Hg'.
  destruct (grows_trans _ _ _ _ Hg Hg') as (Hc & Hh & Hlog & Hk & Hs).
  cbn [set_attached counter histogram log calls spans] in Hc, Hh, Hlog, Hk, Hs.
  repeat split; try assumption.
  rewrite firstn_all in Hs.
  exists (drop (length (spans w)) (spans (deliver faults evs
    (app_handle faults extract fresh fmt_sum req
       (set_res (fun _ => fresh_response) (set_attached true w))).2))).
  rewrite <- Hs at 1. symmetry. apply take_drop.
Qed.

(** X6. Whatever the requests, the events of their responses and the
    collaborators that throw, serving only extends what the process has
    recorded: no counter series gets lower, every histogram series, the
    log and the call trace keep their entries and gain new ones at the
    end, and the spans of earlier requests are left exactly as they
    were. *)
Theorem serving_only_extends_what_is_recorded
    (faults : Faults) (extract : Headers -> option SpanContext)
    (fresh : Headers -> string -> bool) (fmt_sum : list N -> string)
    (rs : list (Request * list (N * ResEvent))) (w : World) :
  let w' := serve faults extract fresh fmt_sum rs w in
  (forall k, counter_value (counter w) k <= counter_value (counter w') k) /\
  (forall k, hist_samples (histogram w) k `prefix_of` hist_samples (histogram w') k) /\
  log w `prefix_of` log w' /\
  calls w `prefix_of` calls w' /\
  spans w `prefix_of` spans w'.
Proof.
  cbv zeta. revert w. induction rs as [|[req evs] rs IH]; intros w.
  - cbn. repeat split; reflexivity.
  - cbn [serve fold_left fst snd].
    change (fold_left _ rs ?x) with (serve faults extract fresh fmt_sum rs x).
    destruct (handle_request_keeps faults extract fresh fmt_sum req evs w)
      as (Hc & Hh & Hl & Hk & Hs).
    cbv zeta in Hc, Hh, Hl, Hk, Hs.
    destruct (IH (handle_request faults extract fresh fmt_sum req evs w))
      as (Hc' & Hh' & Hl' & Hk' & Hs').
    split; [intros k; etransitivity; [apply Hc|apply Hc']|].
    split; [intros k; etransitivity; [apply Hh|apply Hh']|].
    split; [etransitivity; eassumption|].
    split; [etransitivity; eassumption|].
    etransitivity; eassumption.
Qed.

(** X1. The middleware is transparent to the client: as long as the tracer
    and the timer do not throw while it runs, the response of a request
    (status, headers, body, ended or not) is the one the routes give when
    they are run without the middleware, whatever events follow and
    whatever throws in the completion listener. *)
Theorem instrumentation_is_transparent
    (faults : Faults) (extract : Headers -> option SpanContext)
    (fresh : Headers -> string -> bool) (fmt_sum : list N -> string)
    (req : Request) (evs : list (N * ResEvent)) (w : World) :
  middleware_ok faults ->
  let direct := (router faults fresh fmt_sum req (set_res (fun _ => fresh_response) w)).2 in
  let w' := handle_request faults extract fresh fmt_sum req evs w in
  statusCode (res w') = statusCode (res direct) /\
  res_headers (res w') = res_headers (res direct) /\
  body (res w') = body (res direct) /\
  ended (res w') = ended (res direct) /\
  ended (res w') = true.
Proof.
  intros (He & Hs & Ht). cbv zeta. unfold handle_request.
  destruct (app_handle_any faults extract fresh fmt_sum req (set_attached true w))
    as (_ & _ & _ & _ & Hl & _).
  cbv zeta in Hl.
  destruct (deliver_any faults evs _ (listener_of req (set_attached true w)) Hl)
    as (-> & _).
  run_program. cbn. rewrite He, Hs, Ht. cbn.
  route_cases; repeat split; reflexivity.
Qed.

(** The transparency of the middleware at a completed [GET /metrics]
    whose counter increment throws. *)
Lemma instrumentation_is_transparent_witness :
  middleware_ok counter_down /\
  let direct := (router counter_down sample_fresh sample_fmt_sum get_metrics
                   (set_res (fun _ => fresh_response) served_one)).2 in
  let w' := handle_request counter_down sample_extract sample_fresh sample_fmt_sum get_metrics
              completes served_one in
  statusCode (res w') = statusCode (res direct) /\
  res_headers (res w') = res_headers (res direct) /\
  body (res w') = body (res direct) /\
  ended (res w') = ended (res direct) /\
  ended (res w') = true.
Proof.
  assert (Hok : middleware_ok counter_down) by (repeat split; reflexivity).
  split; [exact Hok|].
  apply (instrumentation_is_transparent counter_down sample_extract sample_fresh sample_fmt_sum
           get_metrics completes served_one Hok).
Defined.

(** *** Counter and histogram move together *)

Lemma agree_after_completion (w : World) (mt p : string) (sc : nat) (d : N)
    (c : gmap CounterLabels nat) (h : gmap HistLabels (list N)) :
  samples_agree w ->
  c = inc {| cl_method := mt; cl_route := p; cl_status_code := sc |} (counter w) ->
  h = observe {| hl_method := mt; hl_route := p; hl_code := sc |} d (histogram w) ->
  forall (m r : string) (s : nat),
    length (hist_samples h {| hl_method := m; hl_route := r; hl_code := s |}) =
    counter_value c {| cl_method := m; cl_route := r; cl_status_code := s |}.
Proof.
  intros Hw -> -> m r s.
  rewrite counter_value_inc, hist_samples_observe.
  destruct (decide (_ = _)) as [Hh|Hh]; destruct (decide (_ = _)) as [Hc|Hc].
  - rewrite length_app, Hw. cbn. lia.
  - exfalso. apply Hc. injection Hh as -> -> ->. reflexivity.
  - exfalso. apply Hh. injection Hc as -> -> ->. reflexivity.
  - apply Hw.
Qed.

Section Agreement.

Variable faults : Faults.
Variable extract : Headers -> option SpanContext.
Variable fresh : Headers -> string -> bool.
Variable fmt_sum : list N -> string.
Hypothesis Hend : faults OpTimerEnd = false.

Lemma emit_finish_agree (w : World) (l : FinishListener) :
  on_finish_listeners (res w) = [l] ->
  samples_agree w ->
  samples_agree (emit faults Finish w).2.
Proof.
  intros Hl Hw. unfold emit, resOnFinish, bind, gets.
  destruct (attached w); [|exact Hw].
  cbn [set_attached res]. rewrite Hl. cbn [run_listeners].
  unfold on_finish, httpRequestCounter_inc, timer_end, span_setTag, span_finish,
    call, bind, modify, gets, ret. cbn.
  destruct (faults OpCounterInc); cbn; [exact Hw|].
  rewrite Hend. cbn.
  destruct (faults OpSetTag); cbn;
    [intros m r s; eapply agree_after_completion; [exact Hw|reflexivity|reflexivity]|].
  destruct (faults OpSpanFinish); cbn;
    intros m r s; eapply agree_after_completion; [exact Hw|reflexivity|reflexivity
                                                 |exact Hw|reflexivity|reflexivity].
Qed.

Lemma deliver_agree (evs : list (N * ResEvent)) (w : World) (l : FinishListener) :
  on_finish_listeners (res w) = [] \/ on_finish_listeners (res w) = [l] ->
  samples_agree w ->
  samples_agree (deliver faults evs w).
Proof.
  intros [Hnone|Hl] Hw.
  - destruct (deliver_no_listener faults evs w Hnone) as (_ & _ & _ & Hc & Hh & _).
    unfold samples_agree. rewrite Hc, Hh. exact Hw.
  - revert w Hl Hw. induction evs as [|[d ev] evs IH]; intros w Hl Hw; [exact Hw|].
    cbn [deliver fst snd]. destruct ev.
    + pose proof (emit_finish_agree (set_clock (N.add d) w) l Hl Hw) as Ha.
      destruct (emit_finish_any faults (set_clock (N.add d) w) l Hl) as (Hr & _ & _).
      cbv zeta in Hr.
      destruct (emit faults Finish (set_clock (N.add d) w)) as [[u|op] w2];
        cbn [snd] in Ha, Hr.
      * apply IH; [rewrite Hr; exact Hl|exact Ha].
      * exact Ha.
    + cbn [emit ret]. apply IH; [exact Hl|exact Hw].
Qed.

Lemma handle_request_agree (req : Request) (evs : list (N * ResEvent)) (w : World) :
  samples_agree w ->
  samples_agree (handle_request faults extract fresh fmt_sum req evs w).
Proof.
  intros Hw. unfold handle_request.
  destruct (app_handle_any faults extract fresh fmt_sum req (set_attached true w))
    as (Hc & Hh & _ & _ & Hl & _).
  cbv zeta in Hc, Hh, Hl.
  apply (deliver_agree evs _ (listener_of req (set_attached true w)) Hl).
  unfold samples_agree. rewrite Hc, Hh. exact Hw.
Qed.

End Agreement.

(** X3. As long as the [end] function of the timer does not throw, the two
    metrics stay in step over any traffic: every histogram series holds
    exactly as many samples as the value of the counter series with the
    same method, route and status, also when other collaborators throw,
    when responses are aborted, or when ['finish'] fires more than once. *)
Theorem counter_and_histogram_stay_in_step
    (faults : Faults) (extract : Headers -> option SpanContext)
    (fresh : Headers -> string -> bool) (fmt_sum : list N -> string)
    (rs : list (Request * list (N * ResEvent))) (w : World) :
  faults OpTimerEnd = false ->
  samples_agree w ->
  samples_agree (serve faults extract fresh fmt_sum rs w).
Proof.
  intros Hend. revert w. induction rs as [|[req evs] rs IH]; intros w Hw; [exact Hw|].
  cbn [serve fold_left fst snd].
  change (fold_left _ rs ?x) with (serve faults extract fresh fmt_sum rs x).
  apply IH. apply handle_request_agree; assumption.
Qed.

(** The two metrics in step after the sample traffic on a fresh process. *)
Lemma counter_and_histogram_stay_in_step_witness :
  no_faults OpTimerEnd = false /\
  samples_agree started /\
  samples_agree (serve no_faults sample_extract sample_fresh sample_fmt_sum sample_traffic started).
Proof.
  assert (Hw : samples_agree started) by (intros m r c; reflexivity).
  split; [reflexivity|]. split; [exact Hw|].
  apply (counter_and_histogram_stay_in_step no_faults sample_extract sample_fresh sample_fmt_sum
           sample_traffic started eq_refl Hw).
Defined.

(** *** A throw in the completion listener *)

Section FirstThrow.

Variable faults : Faults.
Variable extract : Headers -> option SpanContext.
Variable fresh : Headers -> string -> bool.
Variable fmt_sum : list N -> string.

(** The first ['finish'] whose listener throws ends the delivery: the
    final state is the one the listener left, in a state that differs
    from the initial one by the clock only. *)
Lemma deliver_first_throw (evs : list (N * ResEvent)) (w : World) (l : FinishListener) :
  completion_throws faults = true ->
  on_finish_listeners (res w) = [l] ->
  1 <= finish_count evs ->
  exists w0,
    deliver faults evs w = set_uncaught true (emit faults Finish w0).2 /\
    counter w0 = counter w /\ histogram w0 = histogram w /\
    spans w0 = spans w /\ res w0 = res w /\ attached w0 = attached w.
Proof.
  intros Hthrow. revert w.
  induction evs as [|[d ev] evs IH]; intros w Hl Hn.
  - cbn in Hn. lia.
  - cbn [deliver fst snd]. destruct ev.
    + exists (set_clock (N.add d) w).
      destruct (emit_finish_throws faults (set_clock (N.add d) w) l Hthrow Hl)
        as (op & w2 & Hemit & _).
      rewrite Hemit. repeat split; reflexivity.
    + cbn [emit ret].
      destruct (IH (set_clock (N.add d) w) Hl) as (w0 & Hd & Hc & Hh & Hs & Hr & Ha).
      { rewrite finish_count_close in Hn. exact Hn. }
      exists w0. repeat split; assumption.
Qed.

(** The listener stops at the statement that throws: what the earlier
    statements did stays, the later ones never run. *)
Lemma emit_finish_stops_at_throw (w0 : World) (l : FinishListener) :
  attached w0 = true ->
  on_finish_listeners (res w0) = [l] ->
  let w2 := (emit faults Finish w0).2 in
  let sc := statusCode (res w0) in
  let cl := {| cl_method := method (cap_req l); cl_route := path (cap_req l);
               cl_status_code := sc |} in
  let hl := {| hl_method := method (cap_req l); hl_route := path (cap_req l);
               hl_code := sc |} in
  (faults OpCounterInc = true ->
     counter w2 = counter w0 /\ histogram w2 = histogram w0 /\ spans w2 = spans w0) /\
  (faults OpCounterInc = false -> faults OpTimerEnd = true ->
     counter w2 = inc cl (counter w0) /\ histogram w2 = histogram w0 /\
     spans w2 = spans w0) /\
  (faults OpCounterInc = false -> faults OpTimerEnd = false -> faults OpSetTag = true ->
     counter w2 = inc cl (counter w0) /\
     histogram w2 = observe hl (clock w0 - cap_end l) (histogram w0) /\
     spans w2 = spans w0) /\
  (faults OpCounterInc = false -> faults OpTimerEnd = false -> faults OpSetTag = false ->
   faults OpSpanFinish = true ->
     counter w2 = inc cl (counter w0) /\
     histogram w2 = observe hl (clock w0 - cap_end l) (histogram w0) /\
     spans w2 = alter (push_tag HTTP_STATUS_CODE (TagNum sc)) (cap_span l) (spans w0)).
Proof.
  intros Ha Hl. cbv zeta. unfold emit, resOnFinish, bind, gets. rewrite Ha.
  cbn [set_attached res]. rewrite Hl. cbn [run_listeners].
  unfold on_finish, httpRequestCounter_inc, timer_end, span_setTag, span_finish,
    call, bind, modify, gets, ret. cbn.
  split; [intros ->; cbn; repeat split; reflexivity|].
  split; [intros -> ->; cbn; repeat split; reflexivity|].
  split; [intros -> -> ->; cbn; repeat split; reflexivity|].
  intros -> -> -> ->; cbn; repeat split; reflexivity.
Qed.

End FirstThrow.

(** X7. A throw in the completion listener leaves the request half
    recorded, in the order of the statements of the listener.  For a
    request that reached the routes and whose response has finished:
    - if [inc] throws, no sample is recorded and the span stays as it was
      opened;
    - if [end] throws, the counter has its sample but the histogram has
      none, and the span stays as it was opened;
    - if [setTag] throws, both samples are recorded and the span stays as
      it was opened;
    - if [finish] throws, both samples are recorded and the span has its
      status tag, but it is not finished.
    In each case the listener has run once at most, however often
    ['finish'] fires afterwards. *)
Theorem listener_stops_at_the_statement_that_throws
    (faults : Faults) (extract : Headers -> option SpanContext)
    (fresh : Headers -> string -> bool) (fmt_sum : list N -> string)
    (req : Request) (evs : list (N * ResEvent)) (w : World) :
  middleware_ok faults ->
  1 <= finish_count evs ->
  let w' := handle_request faults extract fresh fmt_sum req evs w in
  let sc := statusCode (res w') in
  let cl := {| cl_method := method req; cl_route := path req; cl_status_code := sc |} in
  let hl := {| hl_method := method req; hl_route := path req; hl_code := sc |} in
  (faults OpCounterInc = true ->
     counter w' = counter w /\ histogram w' = histogram w /\
     spans w' = spans w ++ [opened_span extract req]) /\
  (faults OpCounterInc = false -> faults OpTimerEnd = true ->
     counter w' = inc cl (counter w) /\ histogram w' = histogram w /\
     spans w' = spans w ++ [opened_span extract req]) /\
  (faults OpCounterInc = false -> faults OpTimerEnd = false -> faults OpSetTag = true ->
     counter w' = inc cl (counter w) /\
     (exists d, histogram w' = observe hl d (histogram w)) /\
     spans w' = spans w ++ [opened_span extract req]) /\
  (faults OpCounterInc = false -> faults OpTimerEnd = false -> faults OpSetTag = false ->
   faults OpSpanFinish = true ->
     counter w' = inc cl (counter w) /\
     (exists d, histogram w' = observe hl d (histogram w)) /\
     spans w' = spans w ++
       [push_tag HTTP_STATUS_CODE (TagNum sc) (opened_span extract req)]).
Proof.
  intros Hmw Hn. cbv zeta.
  destruct (app_handle_ok faults extract fresh fmt_sum req (set_attached true w) Hmw)
    as (_ & Hl & Hsp & Hcnt & Hh & _ & _ & _ & Hatt & _).
  cbv zeta in Hl, Hsp, Hcnt, Hh, Hatt.
  cbn [set_attached spans counter histogram clock attached] in Hl, Hsp, Hcnt, Hh, Hatt.
  assert (Hcase : forall Hthrow : completion_throws faults = true,
    exists w0,
      handle_request faults extract fresh fmt_sum req evs w =
        set_uncaught true (emit faults Finish w0).2 /\
      counter w0 = counter w /\ histogram w0 = histogram w /\
      spans w0 = spans w ++ [opened_span extract req] /\
      on_finish_listeners (res w0) = [listener_of req w] /\
      attached w0 = true /\
      statusCode (res (handle_request faults extract fresh fmt_sum req evs w)) =
        statusCode (res w0)).
  { intros Hthrow. unfold handle_request.
    destruct (deliver_first_throw faults evs _ _ Hthrow Hl Hn)
      as (w0 & Hd & Hc0 & Hh0 & Hs0 & Hr0 & Ha0).
    exists w0. split; [exact Hd|].
    split; [congruence|]. split; [congruence|]. split; [congruence|].
    split; [rewrite Hr0; exact Hl|].
    split; [congruence|].
    destruct (deliver_any faults evs _ (listener_of req w) (or_intror Hl)) as (-> & _).
    rewrite Hr0. reflexivity. }
  assert (Halter : forall f : Span -> Span,
    alter f (length (spans w)) (spans w ++ [opened_span extract req]) =
    spans w ++ [f (opened_span extract req)]).
  { intros f. replace (length (spans w)) with (length (spans w) + 0) by lia.
    rewrite alter_app_r. reflexivity. }
  split; [|split; [|split]].
  - intros Hi.
    destruct Hcase as (w0 & Hd & Hc0 & Hh0 & Hs0 & Hl0 & Ha0 & Hst).
    { unfold completion_throws. rewrite Hi. reflexivity. }
    destruct (emit_finish_stops_at_throw faults w0 _ Ha0 Hl0) as (H1 & _).
    destruct (H1 Hi) as (Hc2 & Hh2 & Hs2).
    rewrite Hd. cbn [set_uncaught counter histogram spans].
    rewrite Hc2, Hh2, Hs2. repeat split; assumption.
  - intros Hi He.
    destruct Hcase as (w0 & Hd & Hc0 & Hh0 & Hs0 & Hl0 & Ha0 & Hst).
    { unfold completion_throws. rewrite Hi, He. reflexivity. }
    destruct (emit_finish_stops_at_throw faults w0 _ Ha0 Hl0) as (_ & H2 & _).
    destruct (H2 Hi He) as (Hc2 & Hh2 & Hs2).
    rewrite Hst. rewrite Hd. cbn [set_uncaught counter histogram spans].
    rewrite Hc2, Hh2, Hs2. cbn [listener_of cap_req].
    repeat split; congruence.
  - intros Hi He Ht.
    destruct Hcase as (w0 & Hd & Hc0 & Hh0 & Hs0 & Hl0 & Ha0 & Hst).
    { unfold completion_throws. rewrite Hi, He, Ht. reflexivity. }
    destruct (emit_finish_stops_at_throw faults w0 _ Ha0 Hl0) as (_ & _ & H3 & _).
    destruct (H3 Hi He Ht) as (Hc2 & Hh2 & Hs2).
    rewrite Hst. rewrite Hd. cbn [set_uncaught counter histogram spans].
    rewrite Hc2, Hh2, Hs2. cbn [listener_of cap_req].
    split; [congruence|]. split; [eexists; rewrite Hh0; reflexivity|exact Hs0].
  - intros Hi He Ht Hf.
    destruct Hcase as (w0 & Hd & Hc0 & Hh0 & Hs0 & Hl0 & Ha0 & Hst).
    { unfold completion_throws. rewrite Hi, He, Ht, Hf. reflexivity. }
    destruct (emit_finish_stops_at_throw faults w0 _ Ha0 Hl0) as (_ & _ & _ & H4).
    destruct (H4 Hi He Ht Hf) as (Hc2 & Hh2 & Hs2).
    rewrite Hst. rewrite Hd. cbn [set_uncaught counter histogram spans].
    rewrite Hc2, Hh2, Hs2. cbn [listener_of cap_req cap_span].
    split; [congruence|]. split; [eexists; rewrite Hh0; reflexivity|].
    rewrite Hs0. apply Halter.
Qed.

(** The half-recorded request at a [GET /] whose [end] throws, on a
    response that fires ['finish'] twice. *)
Lemma listener_stops_at_the_statement_that_throws_witness :
  middleware_ok histogram_down /\
  1 <= finish_count finishes_twice /\
  let w' := handle_request histogram_down sample_extract sample_fresh sample_fmt_sum get_root
              finishes_twice started in
  let cl := {| cl_method := "GET"; cl_route := "/";
               cl_status_code := statusCode (res w') |} in
  counter w' = inc cl (counter started) /\ histogram w' = histogram started /\
  spans w' = spans started ++ [opened_span sample_extract get_root].
Proof.
  assert (Hok : middleware_ok histogram_down) by (repeat split; reflexivity).
  assert (Hn : 1 <= finish_count finishes_twice) by (vm_compute; lia).
  split; [exact Hok|]. split; [exact Hn|].
  destruct (listener_stops_at_the_statement_that_throws histogram_down sample_extract
              sample_fresh sample_fmt_sum get_root finishes_twice started Hok Hn) as (_ & H & _).
  apply H; reflexivity.
Defined.

(** *** The observed duration *)

Lemma deliver_elapsed (faults : Faults) (evs : list (N * ResEvent)) (w : World)
    (l : FinishListener) :
  completion_ok faults ->
  attached w = true ->
  on_finish_listeners (res w) = [l] ->
  finish_count evs = 1 ->
  histogram (deliver faults evs w) =
    observe {| hl_method := method (cap_req l); hl_route := path (cap_req l);
               hl_code := statusCode (res w) |}
      (clock w + elapsed_to_finish evs - cap_end l) (histogram w).
Proof.
  intros Hok. revert w. induction evs as [|[d ev] evs IH]; intros w Ha Hl Hn.
  - discriminate Hn.
  - cbn [deliver fst snd]. destruct ev.
    + rewrite (emit_finish_ok faults (set_clock (N.add d) w) l Hok Ha Hl).
      destruct (deliver_detached faults evs
                  (completed l (set_attached false (set_clock (N.add d) w))) eq_refl)
        as (_ & Hh & _).
      rewrite Hh. unfold completed.
      cbn [set_spans record_call set_histogram set_counter set_clock set_attached
           histogram clock res statusCode elapsed_to_finish].
      f_equal. lia.
    + cbn [emit ret]. rewrite (IH (set_clock (N.add d) w) Ha Hl).
      * cbn [set_clock histogram clock res statusCode elapsed_to_finish].
        f_equal. lia.
      * rewrite finish_count_close in Hn. exact Hn.
Qed.

(** X2. The duration the histogram receives for a request is the time from
    the entry of the middleware to the ['finish'] event of the response:
    the delays of the events up to that one, added up. *)
Theorem observed_duration_is_time_to_finish
    (b : bool) (extract : Headers -> option SpanContext)
    (fresh : Headers -> string -> bool) (fmt_sum : list N -> string)
    (req : Request) (evs : list (N * ResEvent)) (w : World) :
  finish_count evs = 1 ->
  let w' := handle_request (logger_fault b) extract fresh fmt_sum req evs w in
  histogram w' =
    observe {| hl_method := method req; hl_route := path req;
               hl_code := statusCode (res w') |}
      (elapsed_to_finish evs) (histogram w).
Proof.
  intros Hn. cbv zeta. unfold handle_request.
  destruct (app_handle_ok (logger_fault b) extract fresh fmt_sum req (set_attached true w)
              (logger_fault_middleware_ok b))
    as (_ & Hl & _ & _ & Hh & Hclock & _ & _ & Ha & _).
  cbv zeta in Hl, Hh, Hclock, Ha.
  cbn [set_attached spans histogram clock attached] in Hl, Hh, Hclock, Ha.
  destruct (deliver_any (logger_fault b) evs _ (listener_of req w) (or_intror Hl))
    as (-> & _).
  rewrite (deliver_elapsed (logger_fault b) evs _ _ (logger_fault_completion_ok b) Ha Hl Hn).
  cbn [cap_req cap_end]. rewrite Hh, Hclock.
  f_equal. lia.
Qed.

(** The observed duration of a [GET /] that finishes after 5 units. *)
Lemma observed_duration_is_time_to_finish_witness :
  finish_count completes = 1 /\
  let w' := handle_request (logger_fault false) sample_extract sample_fresh sample_fmt_sum get_root
              completes started in
  histogram w' =
    observe {| hl_method := "GET"; hl_route := "/"; hl_code := statusCode (res w') |}
      (elapsed_to_finish completes) (histogram started).
Proof.
  split; [reflexivity|].
  apply (observed_duration_is_time_to_finish false sample_extract sample_fresh sample_fmt_sum
           get_root completes started).
  reflexivity.
Defined.

(** *** Traffic *)

Lemma handle_request_healthy
    (extract : Headers -> option SpanContext) (fresh : Headers -> string -> bool)
    (fmt_sum : list N -> string)
    (req : Request) (evs : list (N * ResEvent)) (w : World) :
  let w' := handle_request no_faults extract fresh fmt_sum req evs w in
  counter w' = Nat.iter (finish_runs evs) (inc (series_of fresh req)) (counter w) /\
  spans w' = spans w ++
    [Nat.iter (finish_runs evs) (complete_span (answer_status fresh req))
       (opened_span extract req)].
Proof.
  cbv zeta.
  destruct (handle_request_ok no_faults extract fresh fmt_sum req evs w
              no_faults_middleware_ok no_faults_completion_ok)
    as (_ & _ & _ & _ & Hcnt & _ & Hsp).
  destruct (answered_status no_faults extract fresh fmt_sum no_faults_middleware_ok
              eq_refl req (set_attached true w)) as (Hst & _).
  cbv zeta in Hcnt, Hsp, Hst. rewrite Hst in Hcnt, Hsp.
  split; [exact Hcnt|exact Hsp].
Qed.

(** X4. With healthy collaborators a counter series counts the completed
    requests of its kind: after any traffic, the value of the series
    [{method, route, status_code}] has grown by the number of requests
    with that method and that path which the routes answer with that
    status and whose response has finished. *)
Theorem counter_series_counts_completed_requests
    (extract : Headers -> option SpanContext) (fresh : Headers -> string -> bool)
    (fmt_sum : list N -> string)
    (rs : list (Request * list (N * ResEvent))) (w : World) (k : CounterLabels) :
  counter_value (counter (serve no_faults extract fresh fmt_sum rs w)) k =
  completions fresh k rs + counter_value (counter w) k.
Proof.
  revert w. induction rs as [|[req evs] rs IH]; intros w; [reflexivity|].
  cbn [serve fold_left fst snd completions].
  change (fold_left _ rs ?x) with (serve no_faults extract fresh fmt_sum rs x).
  rewrite IH.
  destruct (handle_request_healthy extract fresh fmt_sum req evs w) as (Hcnt & _).
  cbv zeta in Hcnt. rewrite Hcnt, counter_value_iter_inc. lia.
Qed.

Lemma completed_span_closed_form (extract : Headers -> option SpanContext)
    (n sc : nat) (req : Request) :
  Nat.iter n (complete_span sc) (opened_span extract req) =
    {| operationName := path req;
       childOf := extract (headers req);
       tags := (SPAN_KIND, TagStr SPAN_KIND_RPC_SERVER) ::
               replicate n (HTTP_STATUS_CODE, TagNum sc);
       finished := n |}.
Proof.
  induction n as [|n IH]; [reflexivity|].
  rewrite Nat.iter_succ, IH. unfold complete_span, mark_finished, push_tag. cbn.
  f_equal. f_equal.
  change ((HTTP_STATUS_CODE, TagNum sc) :: replicate n (HTTP_STATUS_CODE, TagNum sc))
    with (replicate (S n) (HTTP_STATUS_CODE, TagNum sc)).
  rewrite replicate_S_end. reflexivity.
Qed.

(** X5. With healthy collaborators every request leaves exactly one span, in
    the order of arrival: the span store after any traffic is the store
    before it followed by one span per request, named after the path of
    the request, child of the context its headers carry, tagged as a
    server span, and, if its response has finished, tagged with the
    status of the answer and finished once. *)
Theorem one_span_per_request_in_arrival_order
    (extract : Headers -> option SpanContext) (fresh : Headers -> string -> bool)
    (fmt_sum : list N -> string)
    (rs : list (Request * list (N * ResEvent))) (w : World) :
  spans (serve no_faults extract fresh fmt_sum rs w) =
  spans w ++
  map (fun r : Request * list (N * ResEvent) =>
         {| operationName := path r.1;
            childOf := extract (headers r.1);
            tags := (SPAN_KIND, TagStr SPAN_KIND_RPC_SERVER) ::
                    replicate (finish_runs r.2)
                      (HTTP_STATUS_CODE, TagNum (answer_status fresh r.1));
            finished := finish_runs r.2 |}) rs.
Proof.
  revert w. induction rs as [|[req evs] rs IH]; intros w.
  - cbn. rewrite app_nil_r. reflexivity.
  - cbn [serve fold_left map].
    change (fold_left _ rs ?x) with (serve no_faults extract fresh fmt_sum rs x).
    rewrite IH.
    destruct (handle_request_healthy extract fresh fmt_sum req evs w) as (_ & Hsp).
    cbv zeta in Hsp. cbn [fst snd] in *.
    rewrite Hsp, <- app_assoc, completed_span_closed_form. reflexivity.
Qed.

(** *** Start-up *)

(** X8. The start-up message, logged at info level once the server listens,
    always names a port.  The port falls back to the number 8080 when
    [PORT] is unset or empty, and the message then says 8080; any other
    value of [PORT] is taken as the string it is, without being parsed,
    and the message repeats it. *)
Theorem startup_message_names_the_port
    (env : gmap string string) (w : World) :
  let w' := (on_listening no_faults env w).2 in
  exists p,
    log w' = log w ++ [(Info, "App listening on port " +:+ p)] /\
    p <> EmptyString /\
    (env !! "PORT" = None \/ env !! "PORT" = Some EmptyString ->
       port env = PortNumber 8080 /\ p = "8080") /\
    (forall s, env !! "PORT" = Some s -> s <> EmptyString ->
       port env = PortString s /\ p = s).
Proof.
  cbv zeta. exists (port_text (port env)). split; [reflexivity|].
  unfold port. destruct (env !! "PORT") as [[|c s]|]; cbn [port_text].
  - split; [vm_compute; discriminate|]. split.
    + intros _. split; reflexivity.
    + intros s Hs Hne. injection Hs as <-. contradiction.
  - split; [discriminate|]. split.
    + intros [H|H]; discriminate H.
    + intros s' Hs _. injection Hs as <-. split; reflexivity.
  - split; [vm_compute; discriminate|]. split.
    + intros _. split; reflexivity.
    + intros s Hs. discriminate Hs.
Qed.

(** *** Requests that never finish *)

Lemma deliver_no_finish (faults : Faults) (evs : list (N * ResEvent)) (w : World) :
  finish_count evs = 0 ->
  let w' := deliver faults evs w in
  counter w' = counter w /\ histogram w' = histogram w /\
  default_metrics w' = default_metrics w /\ spans w' = spans w /\
  log w' = log w /\ calls w' = calls w /\ uncaught w' = uncaught w.
Proof.
  revert w. induction evs as [|[d ev] evs IH]; intros w Hn; cbv zeta.
  - repeat split; reflexivity.
  - destruct ev; [discriminate Hn|].
    cbn [deliver fst snd emit ret]. apply (IH (set_clock (N.add d) w)).
    rewrite finish_count_close in Hn. exact Hn.
Qed.

Lemma app_handle_registry
    (faults : Faults) (extract : Headers -> option SpanContext)
    (fresh : Headers -> string -> bool) (fmt_sum : list N -> string)
    (req : Request) (w : World) :
  let r := app_handle faults extract fresh fmt_sum req
             (set_res (fun _ => fresh_response) w) in
  counter r.2 = counter w /\ histogram r.2 = histogram w /\
  default_metrics r.2 = default_metrics w /\
  exists extra, spans r.2 = spans w ++ extra /\
                forallb (fun s => Nat.eqb (finished s) 0) extra = true.
Proof.
  cbv zeta. run_program. cbn.
  destruct (faults OpExtract); cbn.
  { do 3 (split; [reflexivity|]). exists []. rewrite app_nil_r. split; reflexivity. }
  destruct (faults OpStartSpan); cbn.
  { do 3 (split; [reflexivity|]). exists []. rewrite app_nil_r. split; reflexivity. }
  destruct (faults OpStartTimer); cbn.
  { do 3 (split; [reflexivity|]). eexists. split; reflexivity. }
  route_cases; (do 3 (split; [reflexivity|]); eexists; split; reflexivity).
Qed.

(** X9. A request whose response never fires ['finish'] (it is still in
    flight, or the client went away) leaves no trace in the metrics,
    whatever throws: the counter and the histogram are as before, hence
    so is the text a scrape would show, and whatever span was opened for
    it is unfinished. *)
Theorem unfinished_request_is_invisible_in_metrics
    (faults : Faults) (extract : Headers -> option SpanContext)
    (fresh : Headers -> string -> bool) (fmt_sum : list N -> string)
    (req : Request) (evs : list (N * ResEvent)) (w : World) :
  finish_count evs = 0 ->
  let w' := handle_request faults extract fresh fmt_sum req evs w in
  counter w' = counter w /\ histogram w' = histogram w /\
  metrics_text fmt_sum w' = metrics_text fmt_sum w /\
  exists extra, spans w' = spans w ++ extra /\
                forallb (fun s => Nat.eqb (finished s) 0) extra = true.
Proof.
  intros Hn. cbv zeta. unfold handle_request.
  destruct (app_handle_registry faults extract fresh fmt_sum req (set_attached true w))
    as (Hc & Hh & Hdm & extra & Hsp & Hextra).
  cbv zeta in Hc, Hh, Hdm, Hsp.
  cbn [set_attached counter histogram default_metrics spans] in Hc, Hh, Hdm, Hsp.
  destruct (deliver_no_finish faults evs
              (app_handle faults extract fresh fmt_sum req
                 (set_res (fun _ => fresh_response) (set_attached true w))).2
              Hn) as (Hc' & Hh' & Hdm' & Hsp' & _).
  cbv zeta in Hc', Hh', Hdm', Hsp'.
  split; [congruence|]. split; [congruence|].
  split; [unfold metrics_text; rewrite Hc', Hh', Hdm', Hc, Hh, Hdm; reflexivity|].
  exists extra. split; [congruence|exact Hextra].
Qed.

(** An aborted [GET /] after one served request. *)
Lemma unfinished_request_is_invisible_in_metrics_witness :
  finish_count aborts = 0 /\
  let w' := handle_request no_faults sample_extract sample_fresh sample_fmt_sum get_root aborts
              served_one in
  counter w' = counter served_one /\ histogram w' = histogram served_one /\
  metrics_text sample_fmt_sum w' = metrics_text sample_fmt_sum served_one.
Proof.
  split; [reflexivity|].
  destruct (unfinished_request_is_invisible_in_metrics no_faults sample_extract
              sample_fresh sample_fmt_sum get_root aborts served_one eq_refl) as (Hc & Hh & Ht & _).
  split; [exact Hc|]. split; [exact Hh|exact Ht].
Defined.

(** *** The status the client sees *)

(** X10. Whatever throws, the program ends the response of every request,
    with status 200, 304, 404 or 500.  The status is 500 in exactly two
    cases: the tracer or the timer threw while the middleware ran, or the
    request went to the handler of [/] and its log call threw.  It is 304
    exactly when the request went to the handler of [/], nothing threw
    before the answer, and the request is conditional and fresh.  A throw
    in the completion listener never changes the status. *)
Theorem client_sees_500_only_for_a_throw_before_the_answer
    (faults : Faults) (extract : Headers -> option SpanContext)
    (fresh : Headers -> string -> bool) (fmt_sum : list N -> string)
    (req : Request) (evs : list (N * ResEvent)) (w : World) :
  let w' := handle_request faults extract fresh fmt_sum req evs w in
  ended (res w') = true /\
  (statusCode (res w') = 200 \/ statusCode (res w') = 304 \/
   statusCode (res w') = 404 \/ statusCode (res w') = 500) /\
  (statusCode (res w') = 500 <->
   middleware_throws faults = true \/
   (handles_method (method req) = true /\ route_match "/" (path req) = true /\
    faults OpLoggerInfo = true)) /\
  (statusCode (res w') = 304 <->
   middleware_throws faults = false /\
   handles_method (method req) = true /\ route_match "/" (path req) = true /\
   faults OpLoggerInfo = false /\ fresh (headers req) "Hello World!" = true).
Proof.
  cbv zeta. unfold handle_request.
  destruct (app_handle_any faults extract fresh fmt_sum req (set_attached true w))
    as (_ & _ & _ & _ & Hl & _).
  cbv zeta in Hl.
  destruct (deliver_any faults evs _ (listener_of req (set_attached true w)) Hl)
    as (-> & _).
  clear Hl. unfold middleware_throws. run_program. cbn.
  destruct (faults OpExtract); cbn;
    [intuition (try discriminate; try lia)|].
  destruct (faults OpStartSpan); cbn;
    [intuition (try discriminate; try lia)|].
  destruct (faults OpStartTimer); cbn;
    [intuition (try discriminate; try lia)|].
  route_cases; intuition (try discriminate; try lia).
Qed.
